(** * Registration / authorization service: the route handlers of [api/api.py]

    A shallow embedding of the FastAPI handlers ([get_current_user],
    [registration], [confirm], [authorization], [verification], [recover],
    [reset_code], [change_password], [logout]) over an explicit model of the
    Redis store they share and of the collaborators they call. *)

From Stdlib Require Import ZArith String Ascii List Bool Lia.
From stdpp Require Import base option gmap strings.

Local Open Scope string_scope.
Local Open Scope Z_scope.

(** ** Python values that travel through the handlers *)

(** What [json.loads] hands back for a field of a stored dictionary, and what
    the handlers pass on.  A number is kept by Python's [repr] of it (this is
    the text redis-py sends and the text an f-string produces); a nested list
    or dictionary is kept by its [str()] text, the only thing the handlers
    ever observe of it. *)
Inductive pyval : Type :=
| PNone
| PBool (b : bool)
| PNum (repr : string)
| PStr (s : string)
| PContainer (text : string).

(** A Python [dict] with string keys, in insertion order. *)
Definition pydict : Type := list (string * pyval).

(** The result of [json.loads]: the handlers only ever call [.get] on it. *)
Inductive json_doc : Type :=
| JDict (d : pydict)
| JNotDict.

(** [d.get(k)]: the value, or [None] when the key is missing. *)
Fixpoint dict_get (d : pydict) (k : string) : pyval :=
  match d with
  | [] => PNone
  | (k', v) :: d' => if String.eqb k' k then v else dict_get d' k
  end.

(** [d[k]]: the value, or nothing ([KeyError]) when the key is missing. *)
Fixpoint dict_item (d : pydict) (k : string) : option pyval :=
  match d with
  | [] => None
  | (k', v) :: d' => if String.eqb k' k then Some v else dict_item d' k
  end.

(** [v is None]. *)
Definition is_none (v : pyval) : bool :=
  match v with PNone => true | _ => false end.

(** [v == s] for a [str] constant [s]. *)
Definition py_eq_str (v : pyval) (s : string) : bool :=
  match v with PStr t => String.eqb t s | _ => false end.

(** [f"{v}"]: the text an f-string puts in place of [v]. *)
Definition py_str (v : pyval) : string :=
  match v with
  | PNone => "None"
  | PBool true => "True"
  | PBool false => "False"
  | PNum r => r
  | PStr s => s
  | PContainer t => t
  end.

(** How redis-py encodes a key or a value: [str] as it is, a number by its
    [repr]; anything else is refused with [DataError]. *)
Definition redis_encode (v : pyval) : option string :=
  match v with
  | PStr s => Some s
  | PNum r => Some r
  | _ => None
  end.

(** ** Exceptions and responses *)

(** The exceptions a handler can end in.  [InvalidTokenError] is the error
    of the token library (PyJWT) that [decode_jwt_token] lets through when
    a token does not verify. *)
Inductive exn : Type :=
| HTTPException (status_code : Z) (detail : string)
| AttributeError
| JSONDecodeError
| KeyError
| DataError
| InvalidTokenError.

(** [JSONResponse(content=..., headers=..., status_code=...)]. *)
Record JSONResponse : Type := mkResponse {
  content : pydict;
  headers : list (string * string);
  status_code : Z
}.

Definition message_response (msg : string) (code : Z) : JSONResponse :=
  {| content := [("message", PStr msg)]; headers := []; status_code := code |}.

(** The [credentials_exception] of [get_current_user]. *)
Definition credentials_exception : exn :=
  HTTPException 401 "Could not validate credentials".

(** User-facing messages of the handlers. *)
Definition MSG_ENTER_CODE : string := "Введите код с почты!".
Definition MSG_WRONG_CODE : string := "Введённый код не верный!".
Definition MSG_AUTHORIZED : string := "Вы авторизированны!".
Definition MSG_NOW_ENTER_CODE : string := "Теперь введите код с почты...".
Definition MSG_MAY_CHANGE : string := "Можете менять пароль!".
Definition MSG_NO_MAIL : string := "Вы не указали почту!".
Definition MSG_NO_CODE : string := "Вы не ввели код!".
Definition MSG_LOGGED_OUT : string := "Успешный выход!".
Definition MSG_TOKEN_NOT_FOUND : string := "Токен не найден".

(** ** The Redis store *)

(** One key of the store: the bytes held and the absolute time (seconds)
    at which the key expires, [None] for a key written without a TTL. *)
Record entry : Type := mkEntry {
  e_value : string;
  e_deadline : option Z
}.

(** Redis drops a key once the clock has passed its deadline: at the
    deadline itself the key is still there. *)
Definition live (now : Z) (e : entry) : bool :=
  match e_deadline e with
  | None => true
  | Some d => now <=? d
  end.

Module Redis.

(** [EXISTS key] at time [now]. *)
Definition exists_ (now : Z) (s : gmap string entry) (k : string) : bool :=
  match s !! k with
  | Some e => live now e
  | None => false
  end.

(** [GET key] at time [now]: the bytes, or [None]. *)
Definition get (now : Z) (s : gmap string entry) (k : string) : option string :=
  match s !! k with
  | Some e => if live now e then Some (e_value e) else None
  | None => None
  end.

(** [SET key value]: no TTL, and any earlier TTL of the key is dropped. *)
Definition set (s : gmap string entry) (k v : string) : gmap string entry :=
  <[k := {| e_value := v; e_deadline := None |}]> s.

(** [SETEX key ttl value] at time [now]. *)
Definition setex (now : Z) (s : gmap string entry) (k : string) (ttl : Z)
    (v : string) : gmap string entry :=
  <[k := {| e_value := v; e_deadline := Some (now + ttl) |}]> s.

(** [DEL key]. *)
Definition delete (s : gmap string entry) (k : string) : gmap string entry :=
  base.delete k s.

End Redis.

Arguments Redis.exists_ : simpl never.
Arguments Redis.get : simpl never.
Arguments Redis.set : simpl never.
Arguments Redis.setex : simpl never.
Arguments Redis.delete : simpl never.

(** [timedelta(hours=h)] in seconds. *)
Definition timedelta_hours (h : Z) : Z := h * 3600.

(** ** Request bodies (the pydantic models of [models.models]) *)

Record UserReg : Type := mkUserReg {
  reg_email : string;
  reg_login : string;
  reg_password : string;
  reg_password_two : string
}.

Record CodeConfirm : Type := mkCodeConfirm { code : string }.

Record UserAuth : Type := mkUserAuth {
  auth_login : string;
  auth_password : string;
  memorize_user : bool
}.

Record Recover : Type := mkRecover { recover_user : string }.

Record PasswordChange : Type := mkPasswordChange {
  change_user : string;
  change_password_one : string;
  change_password_two : string
}.

(** ** Collaborators *)

(** Modelled from the spec: the result of a backend step ([backend.backend]
    is not part of [api.py]), the triple of status code, message and payload
    of spec section 6, read by the handlers as [result['status_code']],
    [result['message']], [result['code']] and [result['login']]. *)
Record backend_result : Type := mkResult {
  r_status_code : Z;
  r_message : string;
  r_code : pyval;
  r_login : pyval
}.

(** Modelled from the spec: the modules [api.py] imports and calls but that
    are not part of it ([config], [jwt_tools.jwt], [database.FDataBase],
    [backend.backend]) and the [json] codec.  They are taken as parameters:
    [DB] is the persistent user storage (and whatever else the backend
    touches), every backend step maps a storage state to its result and the
    next storage state, the token issuer and verifier read the clock, and
    the verifier either yields the signed claims or fails with the token
    library's error ([None]), the [identity | AuthError] of spec section
    4.3.
    The two session state tags of [config] are strings. *)
Record Collaborators (DB : Type) : Type := mkCollaborators {
  SECRET_KEY : string;
  SESSION_STATE_MAIL : string;
  SESSION_STATE_CODE : string;
  json_dumps : pydict -> string;
  json_loads : string -> option json_doc;
  create_jwt_token : Z -> pyval -> Z -> string -> string;
  decode_jwt_token : Z -> string -> string -> option pydict;
  update_is_active : pyval -> bool -> DB -> DB;
  register : string -> string -> string -> string -> DB -> backend_result * DB;
  confirm_register : pyval -> pyval -> pyval -> DB -> backend_result * DB;
  authorize : string -> string -> DB -> backend_result * DB;
  recover_pass : string -> DB -> backend_result * DB;
  new_password : pyval -> string -> string -> DB -> backend_result * DB
}.

Arguments SECRET_KEY {DB} _.
Arguments SESSION_STATE_MAIL {DB} _.
Arguments SESSION_STATE_CODE {DB} _.
Arguments json_dumps {DB} _ _.
Arguments json_loads {DB} _ _.
Arguments create_jwt_token {DB} _ _ _ _ _.
Arguments decode_jwt_token {DB} _ _ _ _.
Arguments update_is_active {DB} _ _ _ _.
Arguments register {DB} _ _ _ _ _ _.
Arguments confirm_register {DB} _ _ _ _ _.
Arguments authorize {DB} _ _ _ _.
Arguments recover_pass {DB} _ _ _.
Arguments new_password {DB} _ _ _ _ _.

(** ** The handlers' monad: state (store and storage) with exceptions *)

Record world (DB : Type) : Type := mkWorld {
  redis : gmap string entry;
  db : DB
}.

Arguments mkWorld {DB} _ _.
Arguments redis {DB} _.
Arguments db {DB} _.

Inductive outcome (A : Type) : Type :=
| Return (a : A)
| Raise (e : exn).

Arguments Return {A} _.
Arguments Raise {A} _.

Definition M (DB A : Type) : Type := world DB -> outcome A * world DB.

Definition ret {DB A} (a : A) : M DB A := fun w => (Return a, w).

Definition raise {DB A} (e : exn) : M DB A := fun w => (Raise e, w).

Definition bind {DB A B} (m : M DB A) (k : A -> M DB B) : M DB B :=
  fun w =>
    match m w with
    | (Return a, w') => k a w'
    | (Raise e, w') => (Raise e, w')
    end.

Notation "'let*' x ':=' m 'in' k" := (bind m (fun x => k))
  (at level 10, x name, m at level 100, k at level 200).
Notation "m ;; k" := (bind m (fun _ => k))
  (at level 100, k at level 200, right associativity).

Section Primitives.
Context {DB : Type}.

Definition redis_exists (now : Z) (k : string) : M DB bool :=
  fun w => (Return (Redis.exists_ now (redis w) k), w).

Definition redis_get (now : Z) (k : string) : M DB (option string) :=
  fun w => (Return (Redis.get now (redis w) k), w).

Definition redis_set (k v : string) : M DB unit :=
  fun w => (Return tt, mkWorld (Redis.set (redis w) k v) (db w)).

Definition redis_setex (now : Z) (k : string) (ttl : Z) (v : string)
    : M DB unit :=
  fun w => (Return tt, mkWorld (Redis.setex now (redis w) k ttl v) (db w)).

Definition redis_delete (k : string) : M DB unit :=
  fun w => (Return tt, mkWorld (Redis.delete (redis w) k) (db w)).

(** A key or value handed to redis-py. *)
Definition encode (v : pyval) : M DB string :=
  match redis_encode v with
  | Some s => ret s
  | None => raise DataError
  end.

(** [await] of a backend step. *)
Definition backend (f : DB -> backend_result * DB) : M DB backend_result :=
  fun w => let '(r, d) := f (db w) in (Return r, mkWorld (redis w) d).

(** [await] of a storage update. *)
Definition storage (f : DB -> DB) : M DB unit :=
  fun w => (Return tt, mkWorld (redis w) (f (db w))).

(** [raw.decode('utf-8')]: [None] has no [decode]. *)
Definition bytes_decode (raw : option string) : M DB string :=
  match raw with
  | Some s => ret s
  | None => raise AttributeError
  end.

(** The first [.get] on what [json.loads] returned. *)
Definition as_dict (doc : json_doc) : M DB pydict :=
  match doc with
  | JDict d => ret d
  | JNotDict => raise AttributeError
  end.

End Primitives.

(** ** The handlers *)

Section Handlers.
Context {DB : Type} (C : Collaborators DB).

(** [json.loads(text)]. *)
Definition loads (text : string) : M DB json_doc :=
  match json_loads C text with
  | Some doc => ret doc
  | None => raise JSONDecodeError
  end.

(** [decode_jwt_token(token, SECRET_KEY)]: the claims, or the decoder's
    exception. *)
Definition decode_token (now : Z) (token : string) : M DB pydict :=
  match decode_jwt_token C now token (SECRET_KEY C) with
  | Some payload => ret payload
  | None => raise InvalidTokenError
  end.

(** [try: body except jwt.JWTError: raise credentials_exception], as
    [api.py] has it after its [import jwt]: that module (PyJWT) has no
    attribute [JWTError], so when an exception raised in the body reaches
    the clause, evaluating [jwt.JWTError] raises [AttributeError] in its
    stead, and the handler of the clause is never entered. *)
Definition try_except_JWTError {A : Type} (body : M DB A) : M DB A :=
  fun w =>
    match body w with
    | (Return a, w') => (Return a, w')
    | (Raise _, w') => (Raise AttributeError, w')
    end.

(** [get_current_user]: the dependency that guards protected routes. *)
Definition get_current_user (now : Z) (token : string) : M DB pydict :=
  let* found := redis_exists now token in
  if negb found then raise credentials_exception
  else
    let* login :=
      try_except_JWTError
        (let* payload := decode_token now token in
         let login := dict_get payload "login" in
         if is_none login then raise credentials_exception
         else ret login) in
    ret [("login", login)].

(** [POST /registration/]. *)
Definition registration (data : UserReg) : M DB JSONResponse :=
  let* result := backend (register C (reg_email data) (reg_login data)
                       (reg_password data) (reg_password_two data)) in
  if r_status_code result =? 200 then
    let data_redis := [("email", PStr (reg_email data));
                       ("login", PStr (reg_login data));
                       ("password", PStr (reg_password data))] in
    let* key := encode (r_code result) in
    redis_set key (json_dumps C data_redis) ;;
    ret (message_response MSG_ENTER_CODE 200)
  else
    (* sentry_sdk.capture_message: telemetry, no state of the model *)
    ret (message_response (r_message result) (r_status_code result)).

(** [POST /registration/confirm]. *)
Definition confirm (now : Z) (data : CodeConfirm) : M DB JSONResponse :=
  let* found := redis_exists now (code data) in
  if negb found then ret (message_response MSG_WRONG_CODE 400)
  else
    let* raw := redis_get now (code data) in
    let* text := bytes_decode raw in
    let* doc := loads text in
    (* isinstance(user_data, JSONResponse) is never true of a JSON value *)
    let* user_data := as_dict doc in
    let email := dict_get user_data "email" in
    let login := dict_get user_data "login" in
    let password := dict_get user_data "password" in
    let* result := backend (confirm_register C email login password) in
    if r_status_code result =? 200 then
      redis_delete ("login:" ++ code data)%string ;;
      ret (message_response (r_message result) 200)
    else ret (message_response (r_message result) 400).

(** [POST /authorization/]. *)
Definition authorization (data : UserAuth) : M DB JSONResponse :=
  let* result := backend (authorize C (auth_login data) (auth_password data)) in
  if r_status_code result =? 200 then
    let data_redis := [("code", r_code result);
                       ("login", PStr (auth_login data));
                       ("remember_user", PBool (memorize_user data))] in
    let* key := encode (r_code result) in
    redis_set key (json_dumps C data_redis) ;;
    ret {| content := [("key", r_login result)]; headers := [];
           status_code := 200 |}
  else ret (message_response (r_message result) (r_status_code result)).

(** [POST /authorization/verification].  When the code is not in the store
    the 400 response is built and bound to [response], and the handler
    goes on. *)
Definition verification (now : Z) (data : CodeConfirm) : M DB JSONResponse :=
  let* found := redis_exists now (code data) in
  let response :=
    if negb found then Some (message_response MSG_WRONG_CODE 400) else None in
  let* raw := redis_get now (code data) in
  let* text := bytes_decode raw in
  let* doc := loads text in
  let* user_data := as_dict doc in
  let login := dict_get user_data "login" in
  let auth_code := dict_get user_data "code" in
  let token := create_jwt_token C now login 1 (SECRET_KEY C) in
  storage (update_is_active C login true) ;;
  let* value := encode login in
  redis_setex now token (timedelta_hours 12) value ;;
  let response :=
    {| content := [("message", PStr MSG_AUTHORIZED)];
       headers := [("Authorization", ("Bearer " ++ token)%string)];
       status_code := 200 |} in
  redis_delete ("login:" ++ py_str auth_code)%string ;;
  ret response.

(** [POST /authorization/recover]. *)
Definition recover (data : Recover) : M DB JSONResponse :=
  let* result := backend (recover_pass C (recover_user data)) in
  let data_redis := [("state", PStr (SESSION_STATE_MAIL C));
                     ("user", PStr (recover_user data))] in
  if r_status_code result =? 200 then
    let* key := encode (r_code result) in
    redis_set key (json_dumps C data_redis) ;;
    ret {| content := [("message", PStr MSG_NOW_ENTER_CODE);
                       ("user", PStr (recover_user data))];
           headers := []; status_code := 200 |}
  else ret (message_response (r_message result) (r_status_code result)).

(** [POST /authorization/recover/reset_code]; the same unreturned 400
    response as in [verification]. *)
Definition reset_code (now : Z) (data : CodeConfirm) : M DB JSONResponse :=
  let* found := redis_exists now (code data) in
  let response :=
    if negb found then Some (message_response MSG_WRONG_CODE 400) else None in
  let* raw := redis_get now (code data) in
  let* text := bytes_decode raw in
  let* doc := loads text in
  let* user_data := as_dict doc in
  let state := dict_get user_data "state" in
  let user := dict_get user_data "user" in
  if py_eq_str state (SESSION_STATE_MAIL C) then
    let data_redis := [("state", PStr (SESSION_STATE_CODE C));
                       ("user", user)] in
    let* key := encode user in
    redis_set key (json_dumps C data_redis) ;;
    let response := message_response MSG_MAY_CHANGE 200 in
    redis_delete ("login:" ++ code data)%string ;;
    ret response
  else ret (message_response MSG_NO_MAIL 400).

(** [POST /authorization/recover/reset_code/change_password]. *)
Definition change_password (now : Z) (data : PasswordChange)
    : M DB JSONResponse :=
  let* raw := redis_get now (change_user data) in
  let* text := bytes_decode raw in
  let* doc := loads text in
  let* user_data := as_dict doc in
  let state := dict_get user_data "state" in
  let user := dict_get user_data "user" in
  if py_eq_str state (SESSION_STATE_CODE C) then
    let* result := backend (new_password C user (change_password_one data)
                         (change_password_two data)) in
    if r_status_code result =? 200 then
      let response :=
        message_response (r_message result) (r_status_code result) in
      redis_delete ("login:" ++ py_str user)%string ;;
      ret response
    else ret (message_response (r_message result) (r_status_code result))
  else ret (message_response MSG_NO_CODE 400).

(** [POST /logout/]. *)
Definition logout (now : Z) (token : string) : M DB JSONResponse :=
  let* found := redis_exists now token in
  if found then
    redis_delete token ;;
    match decode_jwt_token C now token (SECRET_KEY C) with
    | Some login =>
        match dict_item login "login" with
        | Some who =>
            storage (update_is_active C who true) ;;
            ret (message_response MSG_LOGGED_OUT 200)
        | None => raise KeyError
        end
    | None => raise InvalidTokenError
    end
  else ret (message_response MSG_TOKEN_NOT_FOUND 400).

End Handlers.

(** ** Reading a pending entry

    The dictionary a handler finds under a key at time [now]: the key is
    live and its bytes are the JSON text of a dictionary. *)

Definition read_dict {DB : Type} (C : Collaborators DB) (now : Z)
    (s : gmap string entry) (k : string) : option pydict :=
  match Redis.get now s k with
  | Some text =>
      match json_loads C text with
      | Some (JDict d) => Some d
      | _ => None
      end
  | None => None
  end.

(** ** An in-memory stand-in for the collaborators

    Used to run the handlers on concrete requests.  The storage is the log of
    the calls it received; the token verifier looks the token up in a table
    of issued tokens and honours the expiry written there; the JSON codec
    prints a flat dictionary and reads back the documents it is told about. *)

Module Fake.

Inductive call : Type :=
| SetActive (who : pyval) (flag : bool)
| CreateUser (email login password : pyval)
| SetPassword (user : pyval) (password : string).

Definition DB : Type := list call.

Definition quote : string := String (ascii_of_nat 34) EmptyString.

Definition render_value (v : pyval) : string :=
  match v with
  | PNone => "null"
  | PBool true => "true"
  | PBool false => "false"
  | PNum r => r
  | PStr s => (quote ++ s ++ quote)%string
  | PContainer t => t
  end.

Fixpoint render_items (d : pydict) : string :=
  match d with
  | [] => ""
  | (k, v) :: d' =>
      let item := (quote ++ k ++ quote ++ ": " ++ render_value v)%string in
      match d' with
      | [] => item
      | _ => (item ++ ", " ++ render_items d')%string
      end
  end.

Definition dumps (d : pydict) : string :=
  ("{" ++ render_items d ++ "}")%string.

Definition loads (docs : list pydict) (text : string) : option json_doc :=
  match List.find (fun d => String.eqb (dumps d) text) docs with
  | Some d => Some (JDict d)
  | None => None
  end.

(** An issued token: its text, the time its signed expiry falls, its
    claims. *)
Definition decode (issued : list (string * (Z * pydict))) (now : Z)
    (token secret : string) : option pydict :=
  match List.find (fun t => String.eqb (fst t) token) issued with
  | Some (_, (expiry, claims)) => if now <? expiry then Some claims else None
  | None => None
  end.

Definition create (now : Z) (login : pyval) (hours : Z) (secret : string)
    : string :=
  ("jwt." ++ py_str login)%string.

Definition ok (msg : string) (c : string) (who : string) : backend_result :=
  {| r_status_code := 200; r_message := msg; r_code := PStr c;
     r_login := PStr who |}.

Definition failed (status : Z) (msg : string) : backend_result :=
  {| r_status_code := status; r_message := msg; r_code := PNone;
     r_login := PNone |}.

Definition collaborators (next_code : string)
    (issued : list (string * (Z * pydict))) (docs : list pydict)
    : Collaborators DB :=
  {| SECRET_KEY := "secret";
     SESSION_STATE_MAIL := "mail";
     SESSION_STATE_CODE := "code";
     json_dumps := dumps;
     json_loads := loads docs;
     create_jwt_token := create;
     decode_jwt_token := decode issued;
     update_is_active := fun who flag log => SetActive who flag :: log;
     register := fun email login p1 p2 log =>
       if String.eqb p1 p2 then (ok "sent" next_code login, log)
       else (failed 422 "mismatch", log);
     confirm_register := fun email login password log =>
       (ok "registered" next_code (py_str login),
        CreateUser email login password :: log);
     authorize := fun login password log => (ok "sent" next_code login, log);
     recover_pass := fun user log => (ok "sent" next_code user, log);
     new_password := fun user p1 p2 log =>
       if String.eqb p1 p2
       then (ok "changed" next_code (py_str user), SetPassword user p1 :: log)
       else (failed 400 "mismatch", log) |}.

End Fake.

(** ** Sample runs

    One user, alice, taken through the flows with the stand-in collaborators:
    the backend always hands out the code 123456, and the token issued to
    alice at time 1000 carries a signed expiry one hour later. *)

Module Sample.

Definition pending_registration : pydict :=
  [("email", PStr "a@x.com"); ("login", PStr "alice");
   ("password", PStr "P@ss1")].

Definition pending_login : pydict :=
  [("code", PStr "123456"); ("login", PStr "alice");
   ("remember_user", PBool false)].

Definition mail_sent : pydict :=
  [("state", PStr "mail"); ("user", PStr "alice")].

Definition code_verified : pydict :=
  [("state", PStr "code"); ("user", PStr "alice")].

Definition alice_claims : pydict := [("login", PStr "alice")].

Definition env : Collaborators Fake.DB :=
  Fake.collaborators "123456"
    [("jwt.alice", (1000 + 3600, alice_claims))]
    [pending_registration; pending_login; mail_sent; code_verified].

Definition empty : world Fake.DB := mkWorld ∅ [].

Definition alice : UserReg := mkUserReg "a@x.com" "alice" "P@ss1" "P@ss1".

Definition the_code : CodeConfirm := mkCodeConfirm "123456".

Definition new_secret : PasswordChange :=
  mkPasswordChange "alice" "New1" "New1".

(** The world after [registration] of alice. *)
Definition registration_pending : world Fake.DB :=
  snd (registration env alice empty).

(** The world after [authorization] of alice. *)
Definition login_pending : world Fake.DB :=
  snd (authorization env (mkUserAuth "alice" "P@ss1" false) empty).

(** The world after the [verification] of her code at time 1000. *)
Definition logged_in : world Fake.DB :=
  snd (verification env 1000 the_code login_pending).

(** The world after [recover] for alice. *)
Definition recovery_started : world Fake.DB :=
  snd (recover env (mkRecover "alice") empty).

(** The world after [reset_code] of her recovery code. *)
Definition code_confirmed : world Fake.DB :=
  snd (reset_code env 1000 the_code recovery_started).

(** The world after a first [confirm] of the registration code. *)
Definition confirmed_once : world Fake.DB :=
  snd (confirm env 10 the_code registration_pending).

(** The world after alice's [logout] at time 2000. *)
Definition logged_out : world Fake.DB :=
  snd (logout env 2000 "jwt.alice" logged_in).

End Sample.

(** ** More sample runs

    The stand-in collaborators again, now also told about a pending login
    with the remember-me flag set and about a recovery entry that names no
    user, and with a second issued token whose claims carry no login. *)

Module Scenario.

Definition pending_login_remembered : pydict :=
  [("code", PStr "123456"); ("login", PStr "alice");
   ("remember_user", PBool true)].

Definition session_without_user : pydict := [("state", PStr "mail")].

Definition anonymous_claims : pydict := [("sub", PStr "alice")].

Definition env : Collaborators Fake.DB :=
  Fake.collaborators "123456"
    [("jwt.alice", (1000 + 3600, Sample.alice_claims));
     ("jwt.anon", (1000 + 3600, anonymous_claims))]
    [Sample.pending_registration; Sample.pending_login; Sample.mail_sent;
     Sample.code_verified; pending_login_remembered; session_without_user].



(** A store holding a recovery entry that names no user. *)
Definition orphan_session : world Fake.DB :=
  mkWorld {[ "777777" := {| e_value := Fake.dumps session_without_user;
                            e_deadline := None |} ]} [].

(** A store holding the token whose claims carry no login. *)
Definition anonymous_token : world Fake.DB :=
  mkWorld {[ "jwt.anon" := {| e_value := "alice";
                              e_deadline := Some (1000 + 12 * 3600) |} ]} [].

End Scenario.

(** ** The initial migration ([alembic/versions/baac6b04cbf5]) *)

Module Migration.

(** [sa.Integer()], [sa.String(length=n)], [sa.Text()]. *)
Inductive sa_type : Type :=
| Integer
| SaString (length : Z)
| Text.

(** [sa.Column(name, type, nullable=...)]. *)
Record Column : Type := mkColumn {
  col_name : string;
  col_type : sa_type;
  nullable : bool
}.

(** A table: its columns and the columns of its [PrimaryKeyConstraint]. *)
Record table : Type := mkTable {
  columns : list Column;
  primary_key : list string
}.

(** [op.create_table]: the database refuses a name that is taken. *)
Definition create_table (name : string) (t : table) (s : gmap string table)
    : option (gmap string table) :=
  match s !! name with
  | Some _ => None
  | None => Some (<[name := t]> s)
  end.

(** [op.drop_table]: the database refuses a name that is not there. *)
Definition drop_table (name : string) (s : gmap string table)
    : option (gmap string table) :=
  match s !! name with
  | Some _ => Some (delete name s)
  | None => None
  end.

Definition revision : string := "baac6b04cbf5".

Definition down_revision : option string := None.

Definition user_table : table :=
  {| columns := [mkColumn "id" Integer false;
                 mkColumn "name" (SaString 30) false;
                 mkColumn "password" Text false;
                 mkColumn "email" Text false;
                 mkColumn "role_id" Integer false];
     primary_key := ["id"] |}.

Definition upgrade (s : gmap string table) : option (gmap string table) :=
  create_table "user" user_table s.

Definition downgrade (s : gmap string table) : option (gmap string table) :=
  drop_table "user" s.

End Migration.

(** * Properties *)

(** ** Keys *)

(** The key the handlers delete, ["login:" ++ k], is never the key [k] that
    the pending entry was written under. *)
Lemma string_length_append (s1 s2 : string) :
  String.length (s1 ++ s2) = (String.length s1 + String.length s2)%nat.
Proof.
  induction s1 as [|a s1 IH]; [reflexivity|].
  change (String a s1 ++ s2)%string with (String a (s1 ++ s2)).
  cbn [String.length]. by rewrite IH.
Qed.

Lemma login_prefix_neq (k : string) : ("login:" ++ k)%string <> k.
Proof.
  intros H. apply (f_equal String.length) in H.
  rewrite string_length_append in H. cbn [String.length] in H. lia.
Qed.

(** ** Store primitives *)

Lemma exists_false_get_none now (s : gmap string entry) k :
  Redis.exists_ now s k = false -> Redis.get now s k = None.
Proof.
  unfold Redis.exists_, Redis.get. destruct (s !! k) as [e|]; [|reflexivity].
  intros ->. reflexivity.
Qed.

Lemma exists_delete now (s : gmap string entry) k :
  Redis.exists_ now (Redis.delete s k) k = false.
Proof.
  unfold Redis.exists_, Redis.delete. by rewrite lookup_delete_eq.
Qed.


(** ** Token verification and revocation *)

Section TokenProperties.
Context {DB : Type} (C : Collaborators DB).

(** A token that is not a live key of the store is rejected before the
    signature is even looked at. *)
Lemma get_current_user_absent now token (w : world DB) :
  Redis.exists_ now (redis w) token = false ->
  get_current_user C now token w = (Raise credentials_exception, w).
Proof.
  intros Habs. unfold get_current_user, bind, redis_exists.
  rewrite Habs. reflexivity.
Qed.

(** [get_current_user] on a token that is a live key of the store: the
    login of the claims, or the [AttributeError] of the [except] clause. *)
Lemma get_current_user_live now token (w : world DB) :
  Redis.exists_ now (redis w) token = true ->
  get_current_user C now token w =
    match decode_jwt_token C now token (SECRET_KEY C) with
    | None => (Raise AttributeError, w)
    | Some payload =>
        match dict_get payload "login" with
        | PNone => (Raise AttributeError, w)
        | login => (Return [("login", login)], w)
        end
    end.
Proof.
  intros Hex.
  unfold get_current_user, bind, redis_exists, try_except_JWTError,
    decode_token.
  rewrite Hex. cbn.
  destruct (decode_jwt_token C now token (SECRET_KEY C)) as [payload|];
    [|reflexivity].
  cbn. by destruct (dict_get payload "login").
Qed.

(** What an accepted token went through. *)
Lemma get_current_user_accepts now token (w w' : world DB) claims :
  get_current_user C now token w = (Return claims, w') ->
  Redis.exists_ now (redis w) token = true /\
  exists payload,
    decode_jwt_token C now token (SECRET_KEY C) = Some payload /\
    dict_get payload "login" <> PNone /\
    claims = [("login", dict_get payload "login")] /\
    w' = w.
Proof.
  destruct (Redis.exists_ now (redis w) token) eqn:Hex.
  - rewrite (get_current_user_live now token w Hex).
    destruct (decode_jwt_token C now token (SECRET_KEY C)) as [payload|];
      [|discriminate].
    destruct (dict_get payload "login") eqn:Hlogin;
      try discriminate; intros [= <- <-];
      (split; [reflexivity|]); exists payload; rewrite Hlogin; done.
  - by rewrite (get_current_user_absent now token w Hex).
Qed.

(** A logout that answers at all has removed the token's key. *)
Lemma logout_deletes now token (w w' : world DB) (o : outcome JSONResponse) :
  logout C now token w = (o, w') ->
  Redis.exists_ now (redis w) token = true ->
  redis w' = Redis.delete (redis w) token.
Proof.
  unfold logout, bind, redis_exists, redis_delete. intros Hrun Hex.
  rewrite Hex in Hrun. cbn in Hrun.
  destruct (decode_jwt_token C now token (SECRET_KEY C)) as [payload|];
    [|by inversion Hrun].
  destruct (dict_item payload "login"); by inversion Hrun.
Qed.

Lemma logout_success_present now token (w w' : world DB) resp :
  logout C now token w = (Return resp, w') ->
  status_code resp = 200 ->
  Redis.exists_ now (redis w) token = true.
Proof.
  unfold logout, bind, redis_exists.
  destruct (Redis.exists_ now (redis w) token); [done|].
  cbn. intros [= <- <-]. cbn. discriminate.
Qed.

End TokenProperties.

(** C1.  Once [logout] of a token has succeeded, [get_current_user] rejects
    that token with the 401 credentials error at any later moment, whatever
    the verifier says about its signature and expiry; a token that is not a
    live key of the store is never accepted; and a token that is accepted
    has passed both checks, store presence and signature/expiry validity. *)
Theorem logout_then_token_rejected {DB : Type} (C : Collaborators DB)
    (now later : Z) (token : string) (w w' : world DB) (resp : JSONResponse) :
  logout C now token w = (Return resp, w') ->
  status_code resp = 200 ->
  get_current_user C later token w' = (Raise credentials_exception, w') /\
  (forall t tok (v : world DB),
      Redis.exists_ t (redis v) tok = false ->
      get_current_user C t tok v = (Raise credentials_exception, v)) /\
  (forall t tok (v v' : world DB) claims,
      get_current_user C t tok v = (Return claims, v') ->
      Redis.exists_ t (redis v) tok = true /\
      is_Some (decode_jwt_token C t tok (SECRET_KEY C))).
Proof.
  intros Hrun Hok. split; [|split].
  - apply get_current_user_absent.
    pose proof (logout_success_present C _ _ _ _ _ Hrun Hok) as Hex.
    rewrite (logout_deletes C _ _ _ _ _ Hrun Hex). apply exists_delete.
  - intros t tok v. apply get_current_user_absent.
  - intros t tok v v' claims Hacc.
    destruct (get_current_user_accepts C _ _ _ _ _ Hacc)
      as (Hex & payload & Hdec & _).
    split; [exact Hex|]. rewrite Hdec. by eexists.
Qed.

(** C10.  For a token that is a live key of the store, [get_current_user]
    returns the login of the signed claims, whatever value the store holds
    under the token, when the claims decode and carry a ['login'].  When the
    verifier fails, or the claims carry no ['login'] (or a null one), the
    handler does not answer 401: the exception raised inside the [try]
    reaches [except jwt.JWTError], a name the imported module does not have,
    and the request ends in an [AttributeError]. *)
Theorem get_current_user_present {DB : Type} (C : Collaborators DB)
    (now : Z) (token : string) (w : world DB) :
  Redis.exists_ now (redis w) token = true ->
  get_current_user C now token w =
    match decode_jwt_token C now token (SECRET_KEY C) with
    | None => (Raise AttributeError, w)
    | Some payload =>
        match dict_get payload "login" with
        | PNone => (Raise AttributeError, w)
        | login => (Return [("login", login)], w)
        end
    end.
Proof.
  intros Hex.
  unfold get_current_user, bind, redis_exists. rewrite Hex. cbn.
  unfold try_except_JWTError, decode_token, bind.
  destruct (decode_jwt_token C now token (SECRET_KEY C)) as [payload|];
    [|reflexivity].
  cbn. destruct (dict_get payload "login"); reflexivity.
Qed.

(** ** What the handlers find under a key *)

Lemma read_dict_get {DB : Type} (C : Collaborators DB) now
    (s : gmap string entry) k d :
  read_dict C now s k = Some d ->
  Redis.exists_ now s k = true /\
  exists text, Redis.get now s k = Some text /\
               json_loads C text = Some (JDict d).
Proof.
  unfold read_dict, Redis.get, Redis.exists_.
  destruct (s !! k) as [e|]; [|discriminate].
  destruct (live now e); [|discriminate].
  destruct (json_loads C (e_value e)) as [[d'|]|] eqn:Hj; try discriminate.
  intros [= ->]. split; [reflexivity|]. by exists (e_value e).
Qed.

Lemma read_dict_lookup {DB : Type} (C : Collaborators DB) now
    (s s' : gmap string entry) k :
  s' !! k = s !! k -> read_dict C now s' k = read_dict C now s k.
Proof. unfold read_dict, Redis.get. by intros ->. Qed.

(** Steps shared by [confirm], [verification], [reset_code] and
    [change_password]: fetch, decode, parse, first [.get]. *)
Ltac fetch_dict Hread :=
  let Hex := fresh "Hex" in
  let text := fresh "text" in
  let Hget := fresh "Hget" in
  let Hjson := fresh "Hjson" in
  destruct (read_dict_get _ _ _ _ _ Hread) as (Hex & text & Hget & Hjson);
  unfold bind, redis_exists, redis_get; try rewrite Hex; cbn;
  rewrite Hget; cbn; unfold loads; rewrite Hjson; cbn.

(** ** Registration *)

Section RegistrationProperties.
Context {DB : Type} (C : Collaborators DB).

(** [registration] after a backend success whose code redis-py can send. *)
Lemma registration_success (data : UserReg) (w : world DB) r d key :
  register C (reg_email data) (reg_login data) (reg_password data)
    (reg_password_two data) (db w) = (r, d) ->
  r_status_code r = 200 ->
  redis_encode (r_code r) = Some key ->
  registration C data w =
    (Return (message_response MSG_ENTER_CODE 200),
     mkWorld
       (<[key := {| e_value :=
                      json_dumps C [("email", PStr (reg_email data));
                                    ("login", PStr (reg_login data));
                                    ("password", PStr (reg_password data))];
                    e_deadline := None |}]> (redis w)) d).
Proof.
  intros Hreg Hok Hkey. unfold registration, bind, backend.
  rewrite Hreg, Hok. cbn. unfold encode. rewrite Hkey. reflexivity.
Qed.

(** [confirm] on a code whose pending entry is there. *)
Lemma confirm_present now (data : CodeConfirm) (w : world DB) pending :
  read_dict C now (redis w) (code data) = Some pending ->
  confirm C now data w =
    let '(r, d) :=
      confirm_register C (dict_get pending "email") (dict_get pending "login")
        (dict_get pending "password") (db w) in
    if r_status_code r =? 200
    then (Return (message_response (r_message r) 200),
          mkWorld (Redis.delete (redis w) ("login:" ++ code data)%string) d)
    else (Return (message_response (r_message r) 400), mkWorld (redis w) d).
Proof.
  intros Hread. unfold confirm. fetch_dict Hread.
  unfold backend. cbn.
  destruct (confirm_register C _ _ _ (db w)) as [r d].
  by destruct (r_status_code r =? 200).
Qed.

(** Whatever [confirm] does, the key of the code keeps its entry. *)
Lemma confirm_keeps_code_key now (data : CodeConfirm) (w : world DB) :
  redis (snd (confirm C now data w)) !! code data = redis w !! code data.
Proof.
  unfold confirm, bind, redis_exists, redis_get.
  destruct (Redis.exists_ now (redis w) (code data)); cbn; [|reflexivity].
  destruct (Redis.get now (redis w) (code data)) as [text|]; cbn;
    [|reflexivity].
  unfold loads. destruct (json_loads C text) as [[d|]|]; cbn; try reflexivity.
  unfold backend. cbn.
  destruct (confirm_register C _ _ _ (db w)) as [r s].
  destruct (r_status_code r =? 200); cbn; [|reflexivity].
  unfold Redis.delete. apply lookup_delete_ne, login_prefix_neq.
Qed.

End RegistrationProperties.

(** C2.  Confirming a registration code does not remove the code's pending
    entry: after a first [confirm] that answered 200 the entry is still
    under the code, and a second [confirm] of the same code hands the same
    e-mail, login and password to the backend again and answers with the
    backend's verdict, not with the store's "wrong code" response. *)
Theorem confirm_twice_reaches_backend {DB : Type} (C : Collaborators DB)
    (now later : Z) (data : CodeConfirm) (w w1 : world DB)
    (pending : pydict) (resp : JSONResponse) :
  read_dict C now (redis w) (code data) = Some pending ->
  read_dict C later (redis w) (code data) = Some pending ->
  confirm C now data w = (Return resp, w1) ->
  status_code resp = 200 ->
  redis w1 !! code data = redis w !! code data /\
  Redis.exists_ later (redis w1) (code data) = true /\
  fst (confirm C later data w1) =
    (let r := fst (confirm_register C (dict_get pending "email")
                     (dict_get pending "login") (dict_get pending "password")
                     (db w1)) in
     Return (message_response (r_message r)
               (if r_status_code r =? 200 then 200 else 400))).
Proof.
  intros Hnow Hlater Hrun Hok.
  assert (Hkey : redis w1 !! code data = redis w !! code data).
  { pose proof (confirm_keeps_code_key C now data w) as H.
    by rewrite Hrun in H. }
  assert (Hread : read_dict C later (redis w1) (code data) = Some pending).
  { by rewrite (read_dict_lookup C later _ _ _ Hkey). }
  split; [exact Hkey|]. split.
  - by destruct (read_dict_get C _ _ _ _ Hread).
  - rewrite (confirm_present C later data w1 pending Hread).
    destruct (confirm_register C _ _ _ (db w1)) as [r d]. cbn.
    by destruct (r_status_code r =? 200).
Qed.

(** ** Login *)

Section LoginProperties.
Context {DB : Type} (C : Collaborators DB).

(** [verification] on a code whose pending login is there. *)
Lemma verification_present now (data : CodeConfirm) (w : world DB)
    pending value :
  read_dict C now (redis w) (code data) = Some pending ->
  redis_encode (dict_get pending "login") = Some value ->
  let login := dict_get pending "login" in
  let token := create_jwt_token C now login 1 (SECRET_KEY C) in
  verification C now data w =
    (Return {| content := [("message", PStr MSG_AUTHORIZED)];
               headers := [("Authorization", ("Bearer " ++ token)%string)];
               status_code := 200 |},
     mkWorld
       (Redis.delete
          (Redis.setex now (redis w) token (timedelta_hours 12) value)
          ("login:" ++ py_str (dict_get pending "code"))%string)
       (update_is_active C login true (db w))).
Proof.
  intros Hread Hval. cbn zeta. unfold verification. fetch_dict Hread.
  unfold storage, encode. cbn. rewrite Hval. reflexivity.
Qed.

End LoginProperties.

(** C3.  For a code that is not a live key of the store, [verification]
    issues no token, marks nobody active and writes nothing, but it does not
    answer 400 either: the 400 response is built and not returned, [GET]
    yields [None], and [None.decode] ends the handler in an
    [AttributeError]. *)
Theorem verification_absent_code_raises {DB : Type} (C : Collaborators DB)
    (now : Z) (data : CodeConfirm) (w : world DB) :
  Redis.exists_ now (redis w) (code data) = false ->
  verification C now data w = (Raise AttributeError, w).
Proof.
  intros Habs. unfold verification, bind, redis_exists.
  cbn beta iota. unfold redis_get.
  rewrite (exists_false_get_none _ _ _ Habs).
  reflexivity.
Qed.

(** C7.  A successful [verification] stores the token under the token's own
    text with the login as value and a deadline twelve hours ahead (the
    token itself was issued for one hour), and marks the login active; the
    pending login entry, however, is still a live key of the store
    afterwards, because the key deleted is the code with ["login:"] in
    front. *)
Theorem verification_keeps_pending_login {DB : Type} (C : Collaborators DB)
    (now : Z) (data : CodeConfirm) (w : world DB) (pending : pydict)
    (value : string) :
  read_dict C now (redis w) (code data) = Some pending ->
  redis_encode (dict_get pending "login") = Some value ->
  py_str (dict_get pending "code") = code data ->
  let login := dict_get pending "login" in
  let token := create_jwt_token C now login 1 (SECRET_KEY C) in
  let w' := snd (verification C now data w) in
  (exists resp, fst (verification C now data w) = Return resp /\
                status_code resp = 200 /\
                headers resp = [("Authorization", ("Bearer " ++ token)%string)]) /\
  db w' = update_is_active C login true (db w) /\
  (token <> ("login:" ++ code data)%string ->
   redis w' !! token =
     Some {| e_value := value; e_deadline := Some (now + 12 * 3600) |}) /\
  (token <> code data -> redis w' !! code data = redis w !! code data) /\
  Redis.exists_ now (redis w') (code data) = true.
Proof.
  intros Hread Hval Hcode login token w'. subst w'.
  rewrite (verification_present C now data w pending value Hread Hval).
  cbn [fst snd redis db]. fold login. fold token. rewrite Hcode.
  unfold Redis.delete, Redis.setex, timedelta_hours.
  split; [eexists; repeat split; reflexivity|].
  split; [reflexivity|]. split; [|split].
  - intros Hne. rewrite lookup_delete_ne by congruence.
    by rewrite lookup_insert_eq.
  - intros Hne. rewrite lookup_delete_ne by apply login_prefix_neq.
    by rewrite lookup_insert_ne.
  - destruct (read_dict_get C _ _ _ _ Hread) as [Hex _].
    unfold Redis.exists_ in *.
    rewrite lookup_delete_ne by apply login_prefix_neq.
    rewrite lookup_insert. case_decide; [|exact Hex].
    unfold live. cbn. apply Z.leb_le. lia.
Qed.

(** ** Password recovery *)

Section RecoveryProperties.
Context {DB : Type} (C : Collaborators DB).

(** [reset_code] on a code whose session is in the mail state. *)
Lemma reset_code_mail_sent now (data : CodeConfirm) (w : world DB)
    session key :
  read_dict C now (redis w) (code data) = Some session ->
  py_eq_str (dict_get session "state") (SESSION_STATE_MAIL C) = true ->
  redis_encode (dict_get session "user") = Some key ->
  reset_code C now data w =
    (Return (message_response MSG_MAY_CHANGE 200),
     mkWorld
       (Redis.delete
          (Redis.set (redis w) key
             (json_dumps C [("state", PStr (SESSION_STATE_CODE C));
                            ("user", dict_get session "user")]))
          ("login:" ++ code data)%string)
       (db w)).
Proof.
  intros Hread Hstate Hkey. unfold reset_code. fetch_dict Hread.
  rewrite Hstate. unfold encode. rewrite Hkey. reflexivity.
Qed.

(** [reset_code] on a code whose entry carries any other state. *)
Lemma reset_code_other_state now (data : CodeConfirm) (w : world DB) session :
  read_dict C now (redis w) (code data) = Some session ->
  py_eq_str (dict_get session "state") (SESSION_STATE_MAIL C) = false ->
  reset_code C now data w = (Return (message_response MSG_NO_MAIL 400), w).
Proof.
  intros Hread Hstate. unfold reset_code. fetch_dict Hread.
  by rewrite Hstate.
Qed.

(** [change_password] for a user with no entry: [None.decode]. *)
Lemma change_password_absent now (data : PasswordChange) (w : world DB) :
  Redis.get now (redis w) (change_user data) = None ->
  change_password C now data w = (Raise AttributeError, w).
Proof.
  intros Habs. unfold change_password, bind, redis_get. by rewrite Habs.
Qed.

(** [change_password] for a user whose entry is not in the code state. *)
Lemma change_password_other_state now (data : PasswordChange) (w : world DB)
    session :
  read_dict C now (redis w) (change_user data) = Some session ->
  py_eq_str (dict_get session "state") (SESSION_STATE_CODE C) = false ->
  change_password C now data w =
    (Return (message_response MSG_NO_CODE 400), w).
Proof.
  intros Hread Hstate. unfold change_password. fetch_dict Hread.
  by rewrite Hstate.
Qed.

(** [change_password] for a user whose entry is in the code state. *)
Lemma change_password_code_verified now (data : PasswordChange)
    (w : world DB) session :
  read_dict C now (redis w) (change_user data) = Some session ->
  py_eq_str (dict_get session "state") (SESSION_STATE_CODE C) = true ->
  change_password C now data w =
    let user := dict_get session "user" in
    let '(r, d) :=
      new_password C user (change_password_one data)
        (change_password_two data) (db w) in
    if r_status_code r =? 200
    then (Return (message_response (r_message r) (r_status_code r)),
          mkWorld (Redis.delete (redis w) ("login:" ++ py_str user)%string) d)
    else (Return (message_response (r_message r) (r_status_code r)),
          mkWorld (redis w) d).
Proof.
  intros Hread Hstate. unfold change_password. fetch_dict Hread.
  rewrite Hstate. unfold backend. cbn.
  destruct (new_password C _ _ _ (db w)) as [r d].
  by destruct (r_status_code r =? 200).
Qed.

(** The storage is only ever touched from the code state: in every other
    run of [change_password] the world is left as it was. *)
Lemma change_password_guard now (data : PasswordChange) (w : world DB) :
  (forall session,
      read_dict C now (redis w) (change_user data) = Some session ->
      py_eq_str (dict_get session "state") (SESSION_STATE_CODE C) = false) ->
  snd (change_password C now data w) = w.
Proof.
  intros Hguard. unfold change_password, bind, redis_get.
  pose proof (Hguard) as Hg. unfold read_dict in Hg.
  destruct (Redis.get now (redis w) (change_user data)) as [text|]; cbn;
    [|reflexivity].
  unfold loads. destruct (json_loads C text) as [[d|]|]; cbn;
    try reflexivity.
  by rewrite (Hg d eq_refl).
Qed.

End RecoveryProperties.

(** C5.  For a code whose entry is in the mail state, [reset_code] answers
    200 and writes, under the user named in the entry, a new entry in the
    code state; any other stored state is answered with 400 and nothing
    changes.  The entry under the code itself is not removed: the code is
    still a live key afterwards, the key deleted being the code with
    ["login:"] in front. *)
Theorem reset_code_keeps_code_entry {DB : Type} (C : Collaborators DB)
    (now : Z) (data : CodeConfirm) (w : world DB) (session : pydict)
    (user : string) :
  read_dict C now (redis w) (code data) = Some session ->
  dict_get session "user" = PStr user ->
  (py_eq_str (dict_get session "state") (SESSION_STATE_MAIL C) = true ->
   let w' := snd (reset_code C now data w) in
   fst (reset_code C now data w) =
     Return (message_response MSG_MAY_CHANGE 200) /\
   (user <> ("login:" ++ code data)%string ->
    redis w' !! user =
      Some {| e_value :=
                json_dumps C [("state", PStr (SESSION_STATE_CODE C));
                              ("user", PStr user)];
              e_deadline := None |}) /\
   (user <> code data -> redis w' !! code data = redis w !! code data) /\
   Redis.exists_ now (redis w') (code data) = true) /\
  (py_eq_str (dict_get session "state") (SESSION_STATE_MAIL C) = false ->
   reset_code C now data w = (Return (message_response MSG_NO_MAIL 400), w)).
Proof.
  intros Hread Huser. split.
  - intros Hstate w'. subst w'.
    rewrite (reset_code_mail_sent C now data w session user Hread Hstate)
      by (by rewrite Huser).
    cbn [fst snd redis]. rewrite Huser. unfold Redis.delete, Redis.set.
    split; [reflexivity|]. split; [|split].
    + intros Hne. rewrite lookup_delete_ne by congruence.
      by rewrite lookup_insert_eq.
    + intros Hne. rewrite lookup_delete_ne by apply login_prefix_neq.
      by rewrite lookup_insert_ne.
    + destruct (read_dict_get C _ _ _ _ Hread) as [Hex _].
      unfold Redis.exists_ in *.
      rewrite lookup_delete_ne by apply login_prefix_neq.
      rewrite lookup_insert. by case_decide.
  - apply reset_code_other_state, Hread.
Qed.

(** C4.  [change_password] reaches the backend only from an entry in the
    code state: an entry in any other state is answered with 400 and the
    world is left as it was, and so is it in every run that does not find
    the code state.  A user with no entry, however, gets no response at all:
    the handler ends in an [AttributeError]. *)
Theorem change_password_without_session_raises {DB : Type}
    (C : Collaborators DB) (now : Z) (data : PasswordChange) (w : world DB) :
  Redis.get now (redis w) (change_user data) = None ->
  change_password C now data w = (Raise AttributeError, w) /\
  (forall (v : world DB) session,
      read_dict C now (redis v) (change_user data) = Some session ->
      py_eq_str (dict_get session "state") (SESSION_STATE_CODE C) = false ->
      change_password C now data v =
        (Return (message_response MSG_NO_CODE 400), v)) /\
  (forall v : world DB,
      (forall session,
          read_dict C now (redis v) (change_user data) = Some session ->
          py_eq_str (dict_get session "state") (SESSION_STATE_CODE C) = false) ->
      snd (change_password C now data v) = v).
Proof.
  intros Habs. split; [by apply change_password_absent|]. split.
  - intros v session. apply change_password_other_state.
  - intros v. apply change_password_guard.
Qed.

(** C6.  A [change_password] that the backend accepts (200) from an entry in
    the code state hands the new password to the backend and answers 200,
    but the recovery entry of the user stays in the store: the key deleted
    is the user with ["login:"] in front, so the same session is found again
    by the next request. *)
Theorem change_password_keeps_session {DB : Type} (C : Collaborators DB)
    (now : Z) (data : PasswordChange) (w : world DB) (session : pydict)
    (r : backend_result) (d : DB) :
  read_dict C now (redis w) (change_user data) = Some session ->
  dict_get session "user" = PStr (change_user data) ->
  py_eq_str (dict_get session "state") (SESSION_STATE_CODE C) = true ->
  new_password C (PStr (change_user data)) (change_password_one data)
    (change_password_two data) (db w) = (r, d) ->
  r_status_code r = 200 ->
  let w' := snd (change_password C now data w) in
  fst (change_password C now data w) =
    Return (message_response (r_message r) 200) /\
  db w' = d /\
  redis w' !! change_user data = redis w !! change_user data /\
  read_dict C now (redis w') (change_user data) = Some session.
Proof.
  intros Hread Huser Hstate Hnew Hok w'. subst w'.
  rewrite (change_password_code_verified C now data w session Hread Hstate).
  cbn zeta. rewrite Huser, Hnew, Hok.
  cbn [fst snd redis db Z.eqb Pos.eqb py_str].
  assert (Hkey : Redis.delete (redis w) ("login:" ++ change_user data)%string
                   !! change_user data = redis w !! change_user data).
  { unfold Redis.delete. apply lookup_delete_ne, login_prefix_neq. }
  split; [reflexivity|]. split; [reflexivity|]. split; [exact Hkey|].
  by rewrite (read_dict_lookup C now _ _ _ Hkey).
Qed.

(** ** Logout *)

Section LogoutProperties.
Context {DB : Type} (C : Collaborators DB).

Lemma logout_absent now token (w : world DB) :
  Redis.exists_ now (redis w) token = false ->
  logout C now token w =
    (Return (message_response MSG_TOKEN_NOT_FOUND 400), w).
Proof.
  intros Habs. unfold logout, bind, redis_exists. by rewrite Habs.
Qed.

Lemma logout_present now token (w : world DB) payload who :
  Redis.exists_ now (redis w) token = true ->
  decode_jwt_token C now token (SECRET_KEY C) = Some payload ->
  dict_item payload "login" = Some who ->
  logout C now token w =
    (Return (message_response MSG_LOGGED_OUT 200),
     mkWorld (Redis.delete (redis w) token)
       (update_is_active C who true (db w))).
Proof.
  intros Hex Hdec Hwho. unfold logout, bind, redis_exists, redis_delete.
  rewrite Hex. cbn. rewrite Hdec, Hwho. reflexivity.
Qed.

Lemma logout_undecodable now token (w : world DB) :
  Redis.exists_ now (redis w) token = true ->
  decode_jwt_token C now token (SECRET_KEY C) = None ->
  logout C now token w =
    (Raise InvalidTokenError, mkWorld (Redis.delete (redis w) token) (db w)).
Proof.
  intros Hex Hdec. unfold logout, bind, redis_exists, redis_delete.
  rewrite Hex. cbn. by rewrite Hdec.
Qed.

End LogoutProperties.

(** C8.  [logout] of a token that is not a live key of the store answers
    400 "token not found" and changes nothing.  For a token that is a live
    key, the key is deleted, whatever follows; when the token's signed
    claims decode and carry a ['login'], that login (not the value the store
    held) is marked active and the answer is 200.  When the claims do not
    decode, however, there is no response at all: after the deletion the
    decoder's exception leaves the handler, which has no [try] around the
    call, and nobody is marked active. *)
Theorem logout_by_cases {DB : Type} (C : Collaborators DB)
    (now : Z) (token : string) (w : world DB) :
  (Redis.exists_ now (redis w) token = false ->
   logout C now token w =
     (Return (message_response MSG_TOKEN_NOT_FOUND 400), w)) /\
  (Redis.exists_ now (redis w) token = true ->
   redis (snd (logout C now token w)) = Redis.delete (redis w) token /\
   forall payload who,
     decode_jwt_token C now token (SECRET_KEY C) = Some payload ->
     dict_item payload "login" = Some who ->
     logout C now token w =
       (Return (message_response MSG_LOGGED_OUT 200),
        mkWorld (Redis.delete (redis w) token)
          (update_is_active C who true (db w)))) /\
  (Redis.exists_ now (redis w) token = true ->
   decode_jwt_token C now token (SECRET_KEY C) = None ->
   logout C now token w =
     (Raise InvalidTokenError,
      mkWorld (Redis.delete (redis w) token) (db w))).
Proof.
  split; [apply logout_absent|]. split.
  - intros Hex. split.
    + apply (logout_deletes C now token w _ (fst (logout C now token w)));
        [|exact Hex].
      by destruct (logout C now token w).
    + intros payload who. by apply logout_present.
  - apply logout_undecodable.
Qed.

(** C9, as the code has it.  The pending entry of a successful
    [registration] is written under the code with plain [SET]: it carries no
    deadline and is a live key at every later time. *)
Theorem registration_entry_has_no_ttl {DB : Type} (C : Collaborators DB)
    (data : UserReg) (w : world DB) (r : backend_result) (d : DB)
    (key : string) :
  register C (reg_email data) (reg_login data) (reg_password data)
    (reg_password_two data) (db w) = (r, d) ->
  r_status_code r = 200 ->
  redis_encode (r_code r) = Some key ->
  let w' := snd (registration C data w) in
  fst (registration C data w) = Return (message_response MSG_ENTER_CODE 200) /\
  redis w' !! key =
    Some {| e_value :=
              json_dumps C [("email", PStr (reg_email data));
                            ("login", PStr (reg_login data));
                            ("password", PStr (reg_password data))];
            e_deadline := None |} /\
  (forall t : Z, Redis.exists_ t (redis w') key = true).
Proof.
  intros Hreg Hok Hkey w'. subst w'.
  rewrite (registration_success C data w r d key Hreg Hok Hkey).
  cbn [fst snd redis]. split; [reflexivity|]. split.
  - by rewrite lookup_insert_eq.
  - intros t. unfold Redis.exists_. by rewrite lookup_insert_eq.
Qed.

(** ** The properties on the sample runs *)

(** Alice logs out at time 2000, forty minutes before the signed expiry of
    her token; at 2500 the verifier still accepts the token, and
    [get_current_user] rejects it. *)
Lemma logout_then_token_rejected_witness :
  logout Sample.env 2000 "jwt.alice" Sample.logged_in =
    (Return (message_response MSG_LOGGED_OUT 200), Sample.logged_out) /\
  decode_jwt_token Sample.env 2500 "jwt.alice" (SECRET_KEY Sample.env) =
    Some Sample.alice_claims /\
  get_current_user Sample.env 2500 "jwt.alice" Sample.logged_out =
    (Raise credentials_exception, Sample.logged_out).
Proof.
  assert (Hrun : logout Sample.env 2000 "jwt.alice" Sample.logged_in =
                 (Return (message_response MSG_LOGGED_OUT 200),
                  Sample.logged_out)) by (vm_compute; reflexivity).
  split; [exact Hrun|]. split; [vm_compute; reflexivity|].
  exact (proj1 (logout_then_token_rejected Sample.env 2000 2500 "jwt.alice"
                  Sample.logged_in Sample.logged_out _ Hrun eq_refl)).
Defined.

(** At time 5000 alice's token is still a live key of the store but its
    signed expiry, 4600, has passed: [get_current_user] ends in an
    [AttributeError], not in the 401 credentials error. *)
Lemma get_current_user_present_witness :
  Redis.exists_ 5000 (redis Sample.logged_in) "jwt.alice" = true /\
  decode_jwt_token Sample.env 5000 "jwt.alice" (SECRET_KEY Sample.env) =
    None /\
  get_current_user Sample.env 5000 "jwt.alice" Sample.logged_in =
    (Raise AttributeError, Sample.logged_in).
Proof.
  assert (Hex : Redis.exists_ 5000 (redis Sample.logged_in) "jwt.alice" = true)
    by (vm_compute; reflexivity).
  split; [exact Hex|]. split; [vm_compute; reflexivity|].
  etransitivity;
    [exact (get_current_user_present Sample.env 5000 "jwt.alice"
              Sample.logged_in Hex)|].
  vm_compute; reflexivity.
Defined.

(** Alice's registration code is confirmed at time 10 and again at time 20:
    both calls answer 200 with the backend's message. *)
Lemma confirm_twice_reaches_backend_witness :
  fst (confirm Sample.env 10 Sample.the_code Sample.registration_pending) =
    Return (message_response "registered" 200) /\
  Redis.exists_ 20 (redis Sample.confirmed_once) "123456" = true /\
  fst (confirm Sample.env 20 Sample.the_code Sample.confirmed_once) =
    Return (message_response "registered" 200).
Proof.
  destruct (confirm_twice_reaches_backend Sample.env 10 20 Sample.the_code
              Sample.registration_pending Sample.confirmed_once
              Sample.pending_registration
              (message_response "registered" 200))
    as (_ & Hlive & Hsecond); try (vm_compute; reflexivity).
  split; [vm_compute; reflexivity|]. split; [exact Hlive|].
  etransitivity; [exact Hsecond|]. vm_compute; reflexivity.
Defined.

(** A code nobody was sent, on the empty store. *)
Lemma verification_absent_code_raises_witness :
  Redis.exists_ 1000 (redis Sample.empty) "000000" = false /\
  verification Sample.env 1000 (mkCodeConfirm "000000") Sample.empty =
    (Raise AttributeError, Sample.empty).
Proof.
  assert (Habs : Redis.exists_ 1000 (redis Sample.empty)
                   (code (mkCodeConfirm "000000")) = false)
    by (vm_compute; reflexivity).
  split; [exact Habs|].
  exact (verification_absent_code_raises Sample.env 1000
           (mkCodeConfirm "000000") Sample.empty Habs).
Defined.

(** Alice's login code verified at time 1000: the token is stored until
    44200 and the code 123456 is still a live key. *)
Lemma verification_keeps_pending_login_witness :
  redis Sample.logged_in !! "jwt.alice" =
    Some {| e_value := "alice"; e_deadline := Some 44200 |} /\
  db Sample.logged_in = [Fake.SetActive (PStr "alice") true] /\
  Redis.exists_ 1000 (redis Sample.logged_in) "123456" = true.
Proof.
  destruct (verification_keeps_pending_login Sample.env 1000 Sample.the_code
              Sample.login_pending Sample.pending_login "alice")
    as (_ & Hdb & Htoken & _ & Hlive); try (vm_compute; reflexivity).
  split; [|split].
  - etransitivity; [apply Htoken; discriminate|]. reflexivity.
  - exact Hdb.
  - exact Hlive.
Defined.

(** Alice's recovery code confirmed at time 1000: her entry in the code
    state is written and the code 123456 is still a live key. *)
Lemma reset_code_keeps_code_entry_witness :
  fst (reset_code Sample.env 1000 Sample.the_code Sample.recovery_started) =
    Return (message_response MSG_MAY_CHANGE 200) /\
  read_dict Sample.env 1000 (redis Sample.code_confirmed) "alice" =
    Some Sample.code_verified /\
  Redis.exists_ 1000 (redis Sample.code_confirmed) "123456" = true.
Proof.
  destruct (reset_code_keeps_code_entry Sample.env 1000 Sample.the_code
              Sample.recovery_started Sample.mail_sent "alice")
    as [Hmail _]; try (vm_compute; reflexivity).
  destruct Hmail as (Hresp & _ & _ & Hlive); [vm_compute; reflexivity|].
  split; [exact Hresp|]. split; [vm_compute; reflexivity|exact Hlive].
Defined.

(** A password change for alice with no recovery under way. *)
Lemma change_password_without_session_raises_witness :
  Redis.get 1100 (redis Sample.empty) "alice" = None /\
  change_password Sample.env 1100 Sample.new_secret Sample.empty =
    (Raise AttributeError, Sample.empty).
Proof.
  assert (Habs : Redis.get 1100 (redis Sample.empty)
                   (change_user Sample.new_secret) = None)
    by (vm_compute; reflexivity).
  split; [exact Habs|].
  exact (proj1 (change_password_without_session_raises Sample.env 1100
                  Sample.new_secret Sample.empty Habs)).
Defined.

(** Alice changes her password at time 1100: the answer is 200 and her
    recovery entry is still readable. *)
Lemma change_password_keeps_session_witness :
  fst (change_password Sample.env 1100 Sample.new_secret
         Sample.code_confirmed) = Return (message_response "changed" 200) /\
  read_dict Sample.env 1100
    (redis (snd (change_password Sample.env 1100 Sample.new_secret
                   Sample.code_confirmed))) "alice" =
    Some Sample.code_verified.
Proof.
  destruct (change_password_keeps_session Sample.env 1100 Sample.new_secret
              Sample.code_confirmed Sample.code_verified
              (Fake.ok "changed" "123456" "alice")
              [Fake.SetPassword (PStr "alice") "New1"])
    as (Hresp & _ & _ & Hread); try (vm_compute; reflexivity).
  split; [exact Hresp|exact Hread].
Defined.

(** At time 5000 alice's token is still a live key of the store (its key
    lasts until 44200) but its signed expiry, 4600, has passed.  [logout]
    deletes the key and ends in the verifier's error: no response, and the
    storage holds the one activation of her login, no second one. *)
Lemma logout_by_cases_witness :
  Redis.exists_ 5000 (redis Sample.logged_in) "jwt.alice" = true /\
  decode_jwt_token Sample.env 5000 "jwt.alice" (SECRET_KEY Sample.env) =
    None /\
  logout Sample.env 5000 "jwt.alice" Sample.logged_in =
    (Raise InvalidTokenError,
     mkWorld (Redis.delete (redis Sample.logged_in) "jwt.alice")
       [Fake.SetActive (PStr "alice") true]).
Proof.
  assert (Hex : Redis.exists_ 5000 (redis Sample.logged_in) "jwt.alice" = true)
    by (vm_compute; reflexivity).
  split; [exact Hex|]. split; [vm_compute; reflexivity|].
  destruct (logout_by_cases Sample.env 5000 "jwt.alice" Sample.logged_in)
    as (_ & _ & Hundecodable).
  exact (Hundecodable Hex eq_refl).
Defined.

(** Alice's registration: the entry under 123456 has no deadline. *)
Lemma registration_entry_has_no_ttl_witness :
  fst (registration Sample.env Sample.alice Sample.empty) =
    Return (message_response MSG_ENTER_CODE 200) /\
  e_deadline <$> redis Sample.registration_pending !! "123456" = Some None /\
  Redis.exists_ 1000000000 (redis Sample.registration_pending) "123456" = true.
Proof.
  destruct (registration_entry_has_no_ttl Sample.env Sample.alice Sample.empty
              (Fake.ok "sent" "123456" "alice") [] "123456")
    as (Hresp & Hentry & Hlive); try reflexivity.
  split; [exact Hresp|]. split; [|apply Hlive].
  fold Sample.registration_pending in Hentry. by rewrite Hentry.
Defined.

(** Against C9 as stated: the pending entry written by alice's registration
    carries no time-to-live, and there is no time at which it has expired. *)
Lemma registration_entry_never_expires :
  fst (registration Sample.env Sample.alice Sample.empty) =
    Return (message_response MSG_ENTER_CODE 200) /\
  e_deadline <$> redis Sample.registration_pending !! "123456" = Some None /\
  ~ (exists t : Z,
        Redis.exists_ t (redis Sample.registration_pending) "123456" = false).
Proof.
  split; [vm_compute; reflexivity|]. split; [vm_compute; reflexivity|].
  intros [t Ht]. vm_compute in Ht. discriminate.
Qed.

(** ** Further properties of the handlers *)

(** [confirm] is the one code-checking handler that returns its 400
    response: a code that is not a live key of the store is answered with
    "wrong code" and nothing changes. *)
Theorem confirm_absent_code_rejected {DB : Type} (C : Collaborators DB)
    (now : Z) (data : CodeConfirm) (w : world DB) :
  Redis.exists_ now (redis w) (code data) = false ->
  confirm C now data w = (Return (message_response MSG_WRONG_CODE 400), w).
Proof.
  intros Habs. unfold confirm, bind, redis_exists.
  rewrite Habs. reflexivity.
Qed.

Lemma confirm_absent_code_rejected_witness :
  Redis.exists_ 10 (redis Sample.empty) "000000" = false /\
  confirm Sample.env 10 (mkCodeConfirm "000000") Sample.empty =
    (Return (message_response MSG_WRONG_CODE 400), Sample.empty).
Proof.
  assert (Habs : Redis.exists_ 10 (redis Sample.empty)
                   (code (mkCodeConfirm "000000")) = false)
    by (vm_compute; reflexivity).
  split; [exact Habs|].
  exact (confirm_absent_code_rejected Sample.env 10 (mkCodeConfirm "000000")
           Sample.empty Habs).
Defined.

(** [reset_code] on a code that is not a live key of the store builds the
    400 response without returning it and ends in an [AttributeError],
    leaving the world as it was. *)
Theorem reset_code_absent_code_raises {DB : Type} (C : Collaborators DB)
    (now : Z) (data : CodeConfirm) (w : world DB) :
  Redis.exists_ now (redis w) (code data) = false ->
  reset_code C now data w = (Raise AttributeError, w).
Proof.
  intros Habs. unfold reset_code, bind, redis_exists, redis_get.
  by rewrite (exists_false_get_none _ _ _ Habs).
Qed.

Lemma reset_code_absent_code_raises_witness :
  Redis.exists_ 1000 (redis Sample.empty) "000000" = false /\
  reset_code Sample.env 1000 (mkCodeConfirm "000000") Sample.empty =
    (Raise AttributeError, Sample.empty).
Proof.
  assert (Habs : Redis.exists_ 1000 (redis Sample.empty)
                   (code (mkCodeConfirm "000000")) = false)
    by (vm_compute; reflexivity).
  split; [exact Habs|].
  exact (reset_code_absent_code_raises Sample.env 1000
           (mkCodeConfirm "000000") Sample.empty Habs).
Defined.

(** Any live key of the store can be removed through [logout]: the key is
    deleted before the bearer string is decoded.  Here the bearer string is
    alice's pending login code. *)
Lemma logout_of_a_code_key :
  Redis.exists_ 1000 (redis Sample.login_pending) "123456" = true /\
  logout Sample.env 1000 "123456" Sample.login_pending =
    (Raise InvalidTokenError, Sample.empty).
Proof. split; vm_compute; reflexivity. Qed.

(** ** Flows end to end *)

Section FlowProperties.
Context {DB : Type} (C : Collaborators DB).

(** A value redis-py accepts is sent as the text an f-string shows. *)
Lemma redis_encode_py_str (v : pyval) (k : string) :
  redis_encode v = Some k -> py_str v = k.
Proof. destruct v; cbn; congruence. Qed.

Lemma py_eq_str_refl (s : string) : py_eq_str (PStr s) s = true.
Proof. cbn. apply String.eqb_refl. Qed.

(** Reading back a dictionary written with [SET], at any time. *)
Lemma read_dict_set now (s : gmap string entry) k d :
  json_loads C (json_dumps C d) = Some (JDict d) ->
  read_dict C now (Redis.set s k (json_dumps C d)) k = Some d.
Proof.
  intros Hcodec. unfold read_dict, Redis.get, Redis.set.
  rewrite lookup_insert_eq. cbn. by rewrite Hcodec.
Qed.

Lemma read_dict_delete_ne now (s : gmap string entry) k k' :
  k' <> k ->
  read_dict C now (Redis.delete s k') k = read_dict C now s k.
Proof.
  intros Hne. apply read_dict_lookup. unfold Redis.delete.
  by apply lookup_delete_ne.
Qed.

(** [authorization] after a backend success whose code redis-py can send. *)
Lemma authorization_success (data : UserAuth) (w : world DB) r d key :
  authorize C (auth_login data) (auth_password data) (db w) = (r, d) ->
  r_status_code r = 200 ->
  redis_encode (r_code r) = Some key ->
  authorization C data w =
    (Return {| content := [("key", r_login r)]; headers := [];
               status_code := 200 |},
     mkWorld
       (Redis.set (redis w) key
          (json_dumps C [("code", r_code r);
                         ("login", PStr (auth_login data));
                         ("remember_user", PBool (memorize_user data))]))
       d).
Proof.
  intros Hauth Hok Hkey. unfold authorization, bind, backend.
  rewrite Hauth, Hok. cbn. unfold encode. rewrite Hkey. reflexivity.
Qed.

(** [recover] after a backend success whose code redis-py can send. *)
Lemma recover_success (data : Recover) (w : world DB) r d key :
  recover_pass C (recover_user data) (db w) = (r, d) ->
  r_status_code r = 200 ->
  redis_encode (r_code r) = Some key ->
  recover C data w =
    (Return {| content := [("message", PStr MSG_NOW_ENTER_CODE);
                           ("user", PStr (recover_user data))];
               headers := []; status_code := 200 |},
     mkWorld
       (Redis.set (redis w) key
          (json_dumps C [("state", PStr (SESSION_STATE_MAIL C));
                         ("user", PStr (recover_user data))]))
       d).
Proof.
  intros Hrec Hok Hkey. unfold recover, bind, backend.
  rewrite Hrec, Hok. cbn. unfold encode. rewrite Hkey. reflexivity.
Qed.

End FlowProperties.

(** When the backend step does not answer 200, [registration],
    [authorization] and [recover] pass its message and status on and leave
    the store as it was. *)
Theorem backend_refusal_leaves_store {DB : Type} (C : Collaborators DB)
    (w : world DB) :
  (forall (data : UserReg) r d,
      register C (reg_email data) (reg_login data) (reg_password data)
        (reg_password_two data) (db w) = (r, d) ->
      r_status_code r <> 200 ->
      registration C data w =
        (Return (message_response (r_message r) (r_status_code r)),
         mkWorld (redis w) d)) /\
  (forall (data : UserAuth) r d,
      authorize C (auth_login data) (auth_password data) (db w) = (r, d) ->
      r_status_code r <> 200 ->
      authorization C data w =
        (Return (message_response (r_message r) (r_status_code r)),
         mkWorld (redis w) d)) /\
  (forall (data : Recover) r d,
      recover_pass C (recover_user data) (db w) = (r, d) ->
      r_status_code r <> 200 ->
      recover C data w =
        (Return (message_response (r_message r) (r_status_code r)),
         mkWorld (redis w) d)).
Proof.
  split; [|split]; intros data r d Hcall Hno;
    apply Z.eqb_neq in Hno.
  - unfold registration, bind, backend. rewrite Hcall. cbn.
    by rewrite Hno.
  - unfold authorization, bind, backend. rewrite Hcall. cbn.
    by rewrite Hno.
  - unfold recover, bind, backend. rewrite Hcall. cbn.
    by rewrite Hno.
Qed.

(** A registration that succeeded can be confirmed at any later time: the
    pending entry has no deadline, and [confirm] with the code hands the
    e-mail, the login and the password as they were submitted (the password
    in clear) to the backend, and answers with its verdict. *)
Theorem registration_then_confirm {DB : Type} (C : Collaborators DB)
    (now : Z) (data : UserReg) (w : world DB) (r : backend_result) (d : DB)
    (key : string) :
  register C (reg_email data) (reg_login data) (reg_password data)
    (reg_password_two data) (db w) = (r, d) ->
  r_status_code r = 200 ->
  redis_encode (r_code r) = Some key ->
  (let pending := [("email", PStr (reg_email data));
                   ("login", PStr (reg_login data));
                   ("password", PStr (reg_password data))] in
   json_loads C (json_dumps C pending) = Some (JDict pending)) ->
  let w1 := snd (registration C data w) in
  confirm C now (mkCodeConfirm key) w1 =
    let '(r2, d2) :=
      confirm_register C (PStr (reg_email data)) (PStr (reg_login data))
        (PStr (reg_password data)) d in
    if r_status_code r2 =? 200
    then (Return (message_response (r_message r2) 200),
          mkWorld (Redis.delete (redis w1) ("login:" ++ key)%string) d2)
    else (Return (message_response (r_message r2) 400),
          mkWorld (redis w1) d2).
Proof.
  intros Hreg Hok Hkey Hcodec w1. subst w1.
  rewrite (registration_success C data w r d key Hreg Hok Hkey).
  cbn [snd]. cbn zeta in Hcodec.
  rewrite (confirm_present C now (mkCodeConfirm key) _
             [("email", PStr (reg_email data));
              ("login", PStr (reg_login data));
              ("password", PStr (reg_password data))]).
  - reflexivity.
  - cbn [redis code]. exact (read_dict_set C now (redis w) key _ Hcodec).
Qed.

(** A login that succeeded can be verified at any later time [now]: the
    pending login has no deadline, and [verification] with the code issues a
    one-hour token for the login that was submitted, marks that login
    active, stores the token for twelve hours from [now] and answers 200
    with the token as bearer header. *)
Theorem authorization_then_verification {DB : Type} (C : Collaborators DB)
    (now : Z) (data : UserAuth) (w : world DB) (r : backend_result) (d : DB)
    (key : string) :
  authorize C (auth_login data) (auth_password data) (db w) = (r, d) ->
  r_status_code r = 200 ->
  redis_encode (r_code r) = Some key ->
  (let pending := [("code", r_code r);
                   ("login", PStr (auth_login data));
                   ("remember_user", PBool (memorize_user data))] in
   json_loads C (json_dumps C pending) = Some (JDict pending)) ->
  let w1 := snd (authorization C data w) in
  let token :=
    create_jwt_token C now (PStr (auth_login data)) 1 (SECRET_KEY C) in
  verification C now (mkCodeConfirm key) w1 =
    (Return {| content := [("message", PStr MSG_AUTHORIZED)];
               headers := [("Authorization", ("Bearer " ++ token)%string)];
               status_code := 200 |},
     mkWorld
       (Redis.delete
          (Redis.setex now (redis w1) token (12 * 3600) (auth_login data))
          ("login:" ++ key)%string)
       (update_is_active C (PStr (auth_login data)) true d)).
Proof.
  intros Hauth Hok Hkey Hcodec w1 token. subst w1 token.
  rewrite (authorization_success C data w r d key Hauth Hok Hkey).
  cbn [snd]. cbn zeta in Hcodec.
  rewrite (verification_present C now (mkCodeConfirm key) _
             [("code", r_code r); ("login", PStr (auth_login data));
              ("remember_user", PBool (memorize_user data))]
             (auth_login data)).
  - cbn [dict_get String.eqb Ascii.eqb Bool.eqb andb db redis].
    by rewrite (redis_encode_py_str (r_code r) key Hkey).
  - cbn [redis code]. exact (read_dict_set C now (redis w) key _ Hcodec).
  - reflexivity.
Qed.

(** [verification] does not tell a registration code from a login code: on
    the pending entry of a registration that has not been confirmed it
    issues a token for the login being registered, marks it active and
    answers 200 with the bearer header. *)
Theorem verification_accepts_registration_code {DB : Type}
    (C : Collaborators DB) (now : Z) (data : UserReg) (w : world DB)
    (r : backend_result) (d : DB) (key : string) :
  register C (reg_email data) (reg_login data) (reg_password data)
    (reg_password_two data) (db w) = (r, d) ->
  r_status_code r = 200 ->
  redis_encode (r_code r) = Some key ->
  (let pending := [("email", PStr (reg_email data));
                   ("login", PStr (reg_login data));
                   ("password", PStr (reg_password data))] in
   json_loads C (json_dumps C pending) = Some (JDict pending)) ->
  let w1 := snd (registration C data w) in
  let token :=
    create_jwt_token C now (PStr (reg_login data)) 1 (SECRET_KEY C) in
  verification C now (mkCodeConfirm key) w1 =
    (Return {| content := [("message", PStr MSG_AUTHORIZED)];
               headers := [("Authorization", ("Bearer " ++ token)%string)];
               status_code := 200 |},
     mkWorld
       (Redis.delete
          (Redis.setex now (redis w1) token (12 * 3600) (reg_login data))
          "login:None")
       (update_is_active C (PStr (reg_login data)) true d)).
Proof.
  intros Hreg Hok Hkey Hcodec w1 token. subst w1 token.
  rewrite (registration_success C data w r d key Hreg Hok Hkey).
  cbn [snd]. cbn zeta in Hcodec.
  rewrite (verification_present C now (mkCodeConfirm key) _
             [("email", PStr (reg_email data));
              ("login", PStr (reg_login data));
              ("password", PStr (reg_password data))]
             (reg_login data)).
  - reflexivity.
  - cbn [redis code]. exact (read_dict_set C now (redis w) key _ Hcodec).
  - reflexivity.
Qed.

(** Within twelve hours of a successful [verification] the issued token is
    accepted by [get_current_user] exactly on the verifier's word: when its
    claims decode with a login, that login is returned. *)
Theorem token_accepted_within_store_window {DB : Type} (C : Collaborators DB)
    (now later : Z) (data : CodeConfirm) (w : world DB) (pending claims : pydict)
    (value : string) :
  read_dict C now (redis w) (code data) = Some pending ->
  redis_encode (dict_get pending "login") = Some value ->
  let token :=
    create_jwt_token C now (dict_get pending "login") 1 (SECRET_KEY C) in
  token <> ("login:" ++ py_str (dict_get pending "code"))%string ->
  later < now + 12 * 3600 ->
  decode_jwt_token C later token (SECRET_KEY C) = Some claims ->
  dict_get claims "login" <> PNone ->
  let w' := snd (verification C now data w) in
  get_current_user C later token w' =
    (Return [("login", dict_get claims "login")], w').
Proof.
  intros Hread Hval token Hne Hlater Hdec Hlogin w'. subst w'.
  rewrite (verification_present C now data w pending value Hread Hval).
  cbn [snd]. fold token.
  assert (Hex : Redis.exists_ later
            (Redis.delete
               (Redis.setex now (redis w) token (timedelta_hours 12) value)
               ("login:" ++ py_str (dict_get pending "code"))%string)
            token = true).
  { unfold Redis.exists_, Redis.delete, Redis.setex, timedelta_hours.
    rewrite lookup_delete_ne by congruence. rewrite lookup_insert_eq.
    unfold live. cbn. apply Z.leb_le. lia. }
  rewrite get_current_user_live by exact Hex. rewrite Hdec.
  by destruct (dict_get claims "login").
Qed.

(** Once more than twelve hours have passed since a successful
    [verification], the issued token is rejected by [get_current_user] with
    the 401 credentials error whatever the verifier would say: its key has
    left the store. *)
Theorem token_rejected_after_store_window {DB : Type} (C : Collaborators DB)
    (now later : Z) (data : CodeConfirm) (w : world DB) (pending : pydict)
    (value : string) :
  read_dict C now (redis w) (code data) = Some pending ->
  redis_encode (dict_get pending "login") = Some value ->
  now + 12 * 3600 < later ->
  let token :=
    create_jwt_token C now (dict_get pending "login") 1 (SECRET_KEY C) in
  let w' := snd (verification C now data w) in
  get_current_user C later token w' = (Raise credentials_exception, w').
Proof.
  intros Hread Hval Hlater token w'. subst w'.
  rewrite (verification_present C now data w pending value Hread Hval).
  cbn [snd]. fold token. apply get_current_user_absent. cbn [redis].
  unfold Redis.exists_, Redis.delete, Redis.setex, timedelta_hours.
  rewrite lookup_delete. case_decide; [reflexivity|].
  rewrite lookup_insert_eq. unfold live. cbn. apply Z.leb_gt. lia.
Qed.

(** Password recovery end to end, at any times [t1] and [t2] (no entry of
    the flow has a deadline): after a successful [recover], [reset_code]
    with the code answers 200, and [change_password] for the same user then
    hands the user and the two passwords to the backend and answers with its
    verdict. *)
Theorem recovery_flow_reaches_backend {DB : Type} (C : Collaborators DB)
    (t1 t2 : Z) (data : Recover) (p1 p2 : string) (w : world DB)
    (r : backend_result) (d : DB) (key : string) :
  recover_pass C (recover_user data) (db w) = (r, d) ->
  r_status_code r = 200 ->
  redis_encode (r_code r) = Some key ->
  recover_user data <> ("login:" ++ key)%string ->
  (let session := [("state", PStr (SESSION_STATE_MAIL C));
                   ("user", PStr (recover_user data))] in
   json_loads C (json_dumps C session) = Some (JDict session)) ->
  (let session := [("state", PStr (SESSION_STATE_CODE C));
                   ("user", PStr (recover_user data))] in
   json_loads C (json_dumps C session) = Some (JDict session)) ->
  let w1 := snd (recover C data w) in
  let w2 := snd (reset_code C t1 (mkCodeConfirm key) w1) in
  fst (reset_code C t1 (mkCodeConfirm key) w1) =
    Return (message_response MSG_MAY_CHANGE 200) /\
  db w2 = d /\
  change_password C t2 (mkPasswordChange (recover_user data) p1 p2) w2 =
    let '(r2, d2) := new_password C (PStr (recover_user data)) p1 p2 d in
    if r_status_code r2 =? 200
    then (Return (message_response (r_message r2) (r_status_code r2)),
          mkWorld
            (Redis.delete (redis w2) ("login:" ++ recover_user data)%string)
            d2)
    else (Return (message_response (r_message r2) (r_status_code r2)),
          mkWorld (redis w2) d2).
Proof.
  intros Hrec Hok Hkey Hne Hmail Hcode w1 w2. subst w2 w1.
  cbn zeta in Hmail, Hcode.
  rewrite (recover_success C data w r d key Hrec Hok Hkey). cbn [snd].
  rewrite (reset_code_mail_sent C t1 (mkCodeConfirm key) _
             [("state", PStr (SESSION_STATE_MAIL C));
              ("user", PStr (recover_user data))] (recover_user data)).
  2: { cbn [redis code]. exact (read_dict_set C t1 (redis w) key _ Hmail). }
  2: { apply py_eq_str_refl. }
  2: { reflexivity. }
  cbn [fst snd db redis code dict_get String.eqb Ascii.eqb Bool.eqb andb].
  split; [reflexivity|]. split; [reflexivity|].
  rewrite (change_password_code_verified C t2
             (mkPasswordChange (recover_user data) p1 p2) _
             [("state", PStr (SESSION_STATE_CODE C));
              ("user", PStr (recover_user data))]).
  - reflexivity.
  - cbn [redis change_user].
    rewrite read_dict_delete_ne by congruence.
    exact (read_dict_set C t2 _ (recover_user data) _ Hcode).
  - apply py_eq_str_refl.
Qed.

(** ** What the handlers leave alone, and how they fail *)

Lemma get_some_exists now (s : gmap string entry) k text :
  Redis.get now s k = Some text -> Redis.exists_ now s k = true.
Proof.
  unfold Redis.get, Redis.exists_. destruct (s !! k) as [e|]; [|discriminate].
  by destruct (live now e).
Qed.

(** [get_current_user] only reads: whatever it answers, store and storage
    are as they were. *)
Theorem get_current_user_read_only {DB : Type} (C : Collaborators DB)
    (now : Z) (token : string) (w : world DB) :
  snd (get_current_user C now token w) = w.
Proof.
  destruct (Redis.exists_ now (redis w) token) eqn:Hex.
  - rewrite (get_current_user_live C now token w Hex).
    destruct (decode_jwt_token C now token (SECRET_KEY C)) as [payload|];
      [|reflexivity].
    destruct (dict_get payload "login"); reflexivity.
  - by rewrite (get_current_user_absent C now token w Hex).
Qed.

(** [confirm] never adds or rewrites a key of the store: afterwards the
    store is what it was, or what it was without the key ["login:" ++ code];
    and the store is as it was whenever the answer is not 200. *)
Theorem confirm_only_deletes {DB : Type} (C : Collaborators DB)
    (now : Z) (data : CodeConfirm) (w : world DB) :
  let w' := snd (confirm C now data w) in
  (redis w' = redis w \/
   redis w' = Redis.delete (redis w) ("login:" ++ code data)%string) /\
  (forall resp, fst (confirm C now data w) = Return resp ->
                status_code resp <> 200 -> redis w' = redis w) /\
  (forall e, fst (confirm C now data w) = Raise e -> w' = w).
Proof.
  cbn zeta. unfold confirm, bind, redis_exists, redis_get.
  destruct (Redis.exists_ now (redis w) (code data)); cbn;
    [|split; [by left|split; [done|discriminate]]].
  destruct (Redis.get now (redis w) (code data)) as [text|]; cbn;
    [|split; [by left|split; [done|done]]].
  unfold loads. destruct (json_loads C text) as [[d|]|]; cbn;
    try (split; [by left|split; [done|done]]).
  unfold backend. cbn.
  destruct (confirm_register C _ _ _ (db w)) as [r s].
  destruct (r_status_code r =? 200); cbn.
  - split; [by right|]. split; [|discriminate].
    intros resp [= <-]. cbn. congruence.
  - split; [by left|]. split; [done|discriminate].
Qed.

(** A live key whose bytes are not the JSON text of a dictionary (the key of
    a token, say, which holds a bare login) makes [confirm], [verification],
    [reset_code] and [change_password] end in an exception, a
    [JSONDecodeError] when the bytes are not JSON and an [AttributeError]
    otherwise, with nothing changed. *)
Theorem handlers_reject_non_dictionary {DB : Type} (C : Collaborators DB)
    (now : Z) (k text p1 p2 : string) (w : world DB) :
  Redis.get now (redis w) k = Some text ->
  (forall d, json_loads C text <> Some (JDict d)) ->
  let e := match json_loads C text with
           | None => JSONDecodeError
           | Some _ => AttributeError
           end in
  confirm C now (mkCodeConfirm k) w = (Raise e, w) /\
  verification C now (mkCodeConfirm k) w = (Raise e, w) /\
  reset_code C now (mkCodeConfirm k) w = (Raise e, w) /\
  change_password C now (mkPasswordChange k p1 p2) w = (Raise e, w).
Proof.
  intros Hget Hnot e. subst e.
  pose proof (get_some_exists _ _ _ _ Hget) as Hex.
  destruct (json_loads C text) as [[d|]|] eqn:Hjson;
    [by destruct (Hnot d)|..];
    repeat split;
    unfold confirm, verification, reset_code, change_password, bind,
      redis_exists, redis_get;
    cbn [code change_user]; rewrite ?Hex; cbn; rewrite Hget; cbn;
    unfold loads; rewrite Hjson; reflexivity.
Qed.

(** [reset_code] on an entry in the mail state whose ['user'] is missing or
    is not something redis-py takes as a key ends in a [DataError], with
    nothing changed. *)
Theorem reset_code_unusable_user {DB : Type} (C : Collaborators DB)
    (now : Z) (data : CodeConfirm) (w : world DB) (session : pydict) :
  read_dict C now (redis w) (code data) = Some session ->
  py_eq_str (dict_get session "state") (SESSION_STATE_MAIL C) = true ->
  redis_encode (dict_get session "user") = None ->
  reset_code C now data w = (Raise DataError, w).
Proof.
  intros Hread Hstate Hkey. unfold reset_code. fetch_dict Hread.
  rewrite Hstate. unfold encode. by rewrite Hkey.
Qed.

(** [verification] on an entry whose ['login'] is missing or is not
    something redis-py takes as a value ends in a [DataError] after the
    storage update: no token is stored and no response is given, yet
    [update_is_active] has been called with that login. *)
Theorem verification_unusable_login {DB : Type} (C : Collaborators DB)
    (now : Z) (data : CodeConfirm) (w : world DB) (pending : pydict) :
  read_dict C now (redis w) (code data) = Some pending ->
  redis_encode (dict_get pending "login") = None ->
  verification C now data w =
    (Raise DataError,
     mkWorld (redis w)
       (update_is_active C (dict_get pending "login") true (db w))).
Proof.
  intros Hread Hval. unfold verification. fetch_dict Hread.
  unfold storage, encode. cbn. by rewrite Hval.
Qed.

(** A live token whose claims decode but carry no ['login'] key makes both
    handlers end in an exception.  In [get_current_user] the credentials
    error raised inside the [try] reaches [except jwt.JWTError] and becomes
    an [AttributeError], with nothing changed; [logout] of the same token
    deletes its key and ends in a [KeyError], nobody marked active. *)
Theorem logout_without_login_claim {DB : Type} (C : Collaborators DB)
    (now : Z) (token : string) (w : world DB) (payload : pydict) :
  Redis.exists_ now (redis w) token = true ->
  decode_jwt_token C now token (SECRET_KEY C) = Some payload ->
  dict_item payload "login" = None ->
  get_current_user C now token w = (Raise AttributeError, w) /\
  logout C now token w =
    (Raise KeyError, mkWorld (Redis.delete (redis w) token) (db w)).
Proof.
  intros Hex Hdec Hitem. split.
  - rewrite (get_current_user_live C now token w Hex), Hdec.
    assert (Hget : dict_get payload "login" = PNone).
    { clear Hdec. induction payload as [|[k v] rest IH]; [reflexivity|].
      cbn in *. destruct (String.eqb k "login"); [discriminate|auto]. }
    by rewrite Hget.
  - unfold logout, bind, redis_exists, redis_delete. rewrite Hex. cbn.
    by rewrite Hdec, Hitem.
Qed.

(** After [logout] has run on a live token, however it ended, another
    [logout] of that token at any time answers 400 "token not found" and
    changes nothing. *)
Theorem logout_twice {DB : Type} (C : Collaborators DB)
    (now later : Z) (token : string) (w : world DB) :
  Redis.exists_ now (redis w) token = true ->
  let w' := snd (logout C now token w) in
  logout C later token w' =
    (Return (message_response MSG_TOKEN_NOT_FOUND 400), w').
Proof.
  intros Hex w'. apply logout_absent. subst w'.
  rewrite (logout_deletes C now token w _ (fst (logout C now token w)));
    [apply exists_delete| |exact Hex].
  by destruct (logout C now token w).
Qed.

(** A password change the backend refuses (any status but 200, a mismatch of
    the two passwords for instance) is answered with the backend's message
    and status, and the store is left as it was, the recovery entry
    included. *)
Theorem change_password_refused {DB : Type} (C : Collaborators DB)
    (now : Z) (data : PasswordChange) (w : world DB) (session : pydict)
    (r : backend_result) (d : DB) :
  read_dict C now (redis w) (change_user data) = Some session ->
  py_eq_str (dict_get session "state") (SESSION_STATE_CODE C) = true ->
  new_password C (dict_get session "user") (change_password_one data)
    (change_password_two data) (db w) = (r, d) ->
  r_status_code r <> 200 ->
  change_password C now data w =
    (Return (message_response (r_message r) (r_status_code r)),
     mkWorld (redis w) d).
Proof.
  intros Hread Hstate Hnew Hno.
  rewrite (change_password_code_verified C now data w session Hread Hstate).
  cbn zeta. rewrite Hnew. apply Z.eqb_neq in Hno. by rewrite Hno.
Qed.


(** ** The initial migration *)

(** On a schema with no [user] table, [upgrade] adds exactly that table and
    touches no other; [downgrade] then gives the schema back as it was, and
    a second [upgrade] without it is refused. *)
Theorem upgrade_then_downgrade (s : gmap string Migration.table) :
  s !! "user" = None ->
  exists s',
    Migration.upgrade s = Some s' /\
    s' !! "user" = Some Migration.user_table /\
    (forall k, k <> "user" -> s' !! k = s !! k) /\
    Migration.downgrade s' = Some s /\
    Migration.upgrade s' = None.
Proof.
  intros Hfree. exists (<["user" := Migration.user_table]> s).
  unfold Migration.upgrade, Migration.downgrade, Migration.create_table,
    Migration.drop_table.
  rewrite Hfree, lookup_insert_eq. repeat split.
  - intros k Hk. by rewrite lookup_insert_ne.
  - by rewrite delete_insert_id.
Qed.

(** ** The further properties on the sample runs *)

(** A registration whose two passwords differ: the stand-in backend answers
    422 and nothing is stored. *)
Lemma backend_refusal_leaves_store_witness :
  registration Sample.env (mkUserReg "a@x.com" "alice" "P@ss1" "other")
    Sample.empty =
    (Return (message_response "mismatch" 422), Sample.empty).
Proof.
  destruct (backend_refusal_leaves_store Sample.env Sample.empty)
    as (Hreg & _ & _).
  exact (Hreg (mkUserReg "a@x.com" "alice" "P@ss1" "other")
           (Fake.failed 422 "mismatch") [] eq_refl ltac:(discriminate)).
Defined.

(** Alice's registration confirmed a long time after it was made. *)
Lemma registration_then_confirm_witness :
  confirm Sample.env 1000000000 (mkCodeConfirm "123456")
    Sample.registration_pending =
    (Return (message_response "registered" 200),
     mkWorld (redis Sample.registration_pending)
       [Fake.CreateUser (PStr "a@x.com") (PStr "alice") (PStr "P@ss1")]).
Proof.
  etransitivity;
    [exact (registration_then_confirm Sample.env 1000000000 Sample.alice
              Sample.empty (Fake.ok "sent" "123456" "alice") [] "123456"
              eq_refl eq_refl eq_refl eq_refl)|].
  vm_compute; reflexivity.
Defined.

(** Alice's login verified at time 1000. *)
Lemma authorization_then_verification_witness :
  verification Sample.env 1000 (mkCodeConfirm "123456") Sample.login_pending =
    (Return {| content := [("message", PStr MSG_AUTHORIZED)];
               headers := [("Authorization", "Bearer jwt.alice")];
               status_code := 200 |},
     Sample.logged_in).
Proof.
  etransitivity;
    [exact (authorization_then_verification Sample.env 1000
              (mkUserAuth "alice" "P@ss1" false) Sample.empty
              (Fake.ok "sent" "123456" "alice") [] "123456"
              eq_refl eq_refl eq_refl eq_refl)|].
  vm_compute; reflexivity.
Defined.

(** Alice's registration code, never confirmed, presented to
    [verification]: she gets a bearer token and is marked active. *)
Lemma verification_accepts_registration_code_witness :
  fst (verification Sample.env 1000 (mkCodeConfirm "123456")
         Sample.registration_pending) =
    Return {| content := [("message", PStr MSG_AUTHORIZED)];
              headers := [("Authorization", "Bearer jwt.alice")];
              status_code := 200 |} /\
  db (snd (verification Sample.env 1000 (mkCodeConfirm "123456")
             Sample.registration_pending)) =
    [Fake.SetActive (PStr "alice") true].
Proof.
  unfold Sample.registration_pending.
  rewrite (verification_accepts_registration_code Sample.env 1000 Sample.alice
             Sample.empty (Fake.ok "sent" "123456" "alice") [] "123456"
             eq_refl eq_refl eq_refl eq_refl).
  split; reflexivity.
Defined.

(** Alice's token, issued at 1000, presented at 2000. *)
Lemma token_accepted_within_store_window_witness :
  get_current_user Sample.env 2000 "jwt.alice" Sample.logged_in =
    (Return [("login", PStr "alice")], Sample.logged_in).
Proof.
  exact (token_accepted_within_store_window Sample.env 1000 2000
           Sample.the_code Sample.login_pending Sample.pending_login
           Sample.alice_claims "alice" eq_refl eq_refl
           ltac:(discriminate) eq_refl eq_refl ltac:(discriminate)).
Defined.

(** Alice's token, issued at 1000, presented at 44201, one second after
    the deadline of its key. *)
Lemma token_rejected_after_store_window_witness :
  get_current_user Sample.env 44201 "jwt.alice" Sample.logged_in =
    (Raise credentials_exception, Sample.logged_in).
Proof.
  exact (token_rejected_after_store_window Sample.env 1000 44201
           Sample.the_code Sample.login_pending Sample.pending_login
           "alice" eq_refl eq_refl eq_refl).
Defined.

(** Alice recovers her password: code confirmed at 1000, password changed
    at 1100. *)
Lemma recovery_flow_reaches_backend_witness :
  fst (reset_code Sample.env 1000 Sample.the_code Sample.recovery_started) =
    Return (message_response MSG_MAY_CHANGE 200) /\
  fst (change_password Sample.env 1100 Sample.new_secret
         Sample.code_confirmed) = Return (message_response "changed" 200) /\
  db (snd (change_password Sample.env 1100 Sample.new_secret
             Sample.code_confirmed)) =
    [Fake.SetPassword (PStr "alice") "New1"].
Proof.
  destruct (recovery_flow_reaches_backend Sample.env 1000 1100
              (mkRecover "alice") "New1" "New1" Sample.empty
              (Fake.ok "sent" "123456" "alice") [] "123456"
              eq_refl eq_refl eq_refl ltac:(discriminate) eq_refl eq_refl)
    as (Hreset & _ & Hchange).
  split; [exact Hreset|].
  change (change_password Sample.env 1100 Sample.new_secret
            Sample.code_confirmed =
          (Return (message_response "changed" 200),
           mkWorld (Redis.delete (redis Sample.code_confirmed) "login:alice")
             [Fake.SetPassword (PStr "alice") "New1"])) in Hchange.
  rewrite Hchange. split; reflexivity.
Defined.

(** Alice's token presented as a registration code, a login code, a
    recovery code and a user: its key holds her bare login. *)
Lemma handlers_reject_non_dictionary_witness :
  Redis.get 2000 (redis Sample.logged_in) "jwt.alice" = Some "alice" /\
  confirm Sample.env 2000 (mkCodeConfirm "jwt.alice") Sample.logged_in =
    (Raise JSONDecodeError, Sample.logged_in) /\
  change_password Sample.env 2000 (mkPasswordChange "jwt.alice" "New1" "New1")
    Sample.logged_in = (Raise JSONDecodeError, Sample.logged_in).
Proof.
  assert (Hget : Redis.get 2000 (redis Sample.logged_in) "jwt.alice" =
                 Some "alice") by (vm_compute; reflexivity).
  destruct (handlers_reject_non_dictionary Sample.env 2000 "jwt.alice"
              "alice" "New1" "New1" Sample.logged_in Hget)
    as (Hconfirm & _ & _ & Hchange); [discriminate|].
  split; [exact Hget|]. split; [exact Hconfirm|exact Hchange].
Defined.

(** A recovery entry in the mail state that names no user. *)
Lemma reset_code_unusable_user_witness :
  read_dict Scenario.env 1000 (redis Scenario.orphan_session) "777777" =
    Some Scenario.session_without_user /\
  reset_code Scenario.env 1000 (mkCodeConfirm "777777")
    Scenario.orphan_session = (Raise DataError, Scenario.orphan_session).
Proof.
  assert (Hread : read_dict Scenario.env 1000 (redis Scenario.orphan_session)
                    (code (mkCodeConfirm "777777")) =
                  Some Scenario.session_without_user)
    by (vm_compute; reflexivity).
  split; [exact Hread|].
  exact (reset_code_unusable_user Scenario.env 1000 (mkCodeConfirm "777777")
           Scenario.orphan_session Scenario.session_without_user Hread
           eq_refl eq_refl).
Defined.

(** Alice's recovery code presented to [verification]: the entry has no
    login, [None] is marked active and no token is stored. *)
Lemma verification_unusable_login_witness :
  verification Sample.env 1000 Sample.the_code Sample.recovery_started =
    (Raise DataError,
     mkWorld (redis Sample.recovery_started) [Fake.SetActive PNone true]).
Proof.
  exact (verification_unusable_login Sample.env 1000 Sample.the_code
           Sample.recovery_started Sample.mail_sent eq_refl eq_refl).
Defined.

(** The token whose claims carry no login. *)
Lemma logout_without_login_claim_witness :
  get_current_user Scenario.env 2000 "jwt.anon" Scenario.anonymous_token =
    (Raise AttributeError, Scenario.anonymous_token) /\
  logout Scenario.env 2000 "jwt.anon" Scenario.anonymous_token =
    (Raise KeyError, Sample.empty).
Proof.
  destruct (logout_without_login_claim Scenario.env 2000 "jwt.anon"
              Scenario.anonymous_token Scenario.anonymous_claims
              eq_refl eq_refl eq_refl) as (Hget & Hout).
  split; [exact Hget|].
  etransitivity; [exact Hout|]. vm_compute; reflexivity.
Defined.

(** Alice logs out at 2000 and again at 2001. *)
Lemma logout_twice_witness :
  logout Sample.env 2001 "jwt.alice" Sample.logged_out =
    (Return (message_response MSG_TOKEN_NOT_FOUND 400), Sample.logged_out).
Proof.
  exact (logout_twice Sample.env 2000 2001 "jwt.alice" Sample.logged_in
           eq_refl).
Defined.

(** Alice mistypes the repetition of her new password. *)
Lemma change_password_refused_witness :
  change_password Sample.env 1100 (mkPasswordChange "alice" "New1" "New2")
    Sample.code_confirmed =
    (Return (message_response "mismatch" 400), Sample.code_confirmed).
Proof.
  exact (change_password_refused Sample.env 1100
           (mkPasswordChange "alice" "New1" "New2") Sample.code_confirmed
           Sample.code_verified (Fake.failed 400 "mismatch") []
           eq_refl eq_refl eq_refl ltac:(discriminate)).
Defined.


(** The migration on an empty database. *)
Lemma upgrade_then_downgrade_witness :
  Migration.upgrade ∅ = Some {[ "user" := Migration.user_table ]} /\
  Migration.downgrade {[ "user" := Migration.user_table ]} = Some ∅.
Proof.
  destruct (upgrade_then_downgrade ∅ (lookup_empty "user"))
    as (s' & Hup & _ & _ & Hdown & _).
  assert (Hs : s' = {[ "user" := Migration.user_table ]}).
  { vm_compute in Hup. injection Hup as <-. vm_compute. reflexivity. }
  subst s'. split; [vm_compute; reflexivity|exact Hdown].
Defined.
